(** * sbpy.activity.gas: the Haser coma model and the aperture integrator

    A shallow embedding of [GasComa] and [Haser] of [sbpy/activity/gas.py].

    Numbers.  Python floats are idealised as real numbers.  Division is
    numpy's, which never raises: where a divisor is zero the Python value is
    an infinity or a NaN, here it is whatever [Rdiv] gives, and no theorem
    below reads anything into such a value beyond the program continuing.
    The RuntimeWarning numpy issues on such an operation is not recorded.

    Quantities.  An [astropy.units.Quantity] is a value with a unit; a unit is
    a positive scale to the coherent SI unit of its dimension.  Arithmetic on
    quantities works on the values and the units separately, as astropy does;
    [si] is the magnitude in SI base units, what [decompose()] exposes.

    Effects.  A call may emit warnings, through [warnings.warn], and then
    either return or raise; the monad [M] records both. *)

From Stdlib Require Import Reals Lra ZArith List String Bool.
From Stdlib Require Import Ascii NArith FunctionalExtensionality.
Import ListNotations.
Open Scope R_scope.

(** ** Physical dimensions *)

(** The exponents of the base units of astropy's SI system: m, kg, s, A, K,
    mol, cd and rad. *)
Record Dim : Set := mkDim {
  d_length : Z;
  d_mass : Z;
  d_time : Z;
  d_current : Z;
  d_temperature : Z;
  d_amount : Z;
  d_luminous : Z;
  d_angle : Z
}.

Definition dim_eqb (a b : Dim) : bool :=
  (d_length a =? d_length b)%Z && (d_mass a =? d_mass b)%Z &&
  (d_time a =? d_time b)%Z && (d_current a =? d_current b)%Z &&
  (d_temperature a =? d_temperature b)%Z &&
  (d_amount a =? d_amount b)%Z && (d_luminous a =? d_luminous b)%Z &&
  (d_angle a =? d_angle b)%Z.

Definition dim_one : Dim := mkDim 0 0 0 0 0 0 0 0.

Definition dim_mul (a b : Dim) : Dim :=
  mkDim (d_length a + d_length b) (d_mass a + d_mass b)
        (d_time a + d_time b) (d_current a + d_current b)
        (d_temperature a + d_temperature b) (d_amount a + d_amount b)
        (d_luminous a + d_luminous b) (d_angle a + d_angle b).

Definition dim_pow (a : Dim) (n : Z) : Dim :=
  mkDim (d_length a * n) (d_mass a * n) (d_time a * n) (d_current a * n)
        (d_temperature a * n) (d_amount a * n) (d_luminous a * n)
        (d_angle a * n).

Definition dim_div (a b : Dim) : Dim := dim_mul a (dim_pow b (-1)).

Definition dim_length : Dim := mkDim 1 0 0 0 0 0 0 0.
Definition dim_time : Dim := mkDim 0 0 1 0 0 0 0 0.
Definition dim_amount : Dim := mkDim 0 0 0 0 0 1 0 0.
Definition dim_angle : Dim := mkDim 0 0 0 0 0 0 0 1.

(** ** Units *)

Record Unit : Type := mkUnit {
  scale : R;
  dim : Dim;
  scale_pos : 0 < scale
}.

Definition si_unit (d : Dim) : Unit := mkUnit 1 d Rlt_0_1.

Definition dimensionless_unscaled : Unit := si_unit dim_one.
Definition u_m : Unit := si_unit dim_length.
Definition u_km : Unit := mkUnit 1000 dim_length (IZR_lt 0 1000 eq_refl).
Definition u_s : Unit := si_unit dim_time.
Definition u_mol : Unit := si_unit dim_amount.
Definition u_rad : Unit := si_unit dim_angle.

Definition unit_mul (a b : Unit) : Unit :=
  mkUnit (scale a * scale b) (dim_mul (dim a) (dim b))
         (Rmult_lt_0_compat _ _ (scale_pos a) (scale_pos b)).

Definition unit_pow (a : Unit) (n : Z) : Unit :=
  mkUnit (powerRZ (scale a) n) (dim_pow (dim a) n)
         (powerRZ_lt _ n (scale_pos a)).

Definition unit_div (a b : Unit) : Unit := unit_mul a (unit_pow b (-1)).

(** [Unit.is_equivalent]: the same physical dimension, whatever the scale. *)
Definition is_equivalent (a b : Unit) : bool := dim_eqb (dim a) (dim b).

(** ** Quantities *)

Record Quantity : Type := mkQ {
  value : R;
  unit : Unit
}.

(** The magnitude in SI base units: [q.decompose().value]. *)
Definition si (q : Quantity) : R := value q * scale (unit q).

Definition decompose (q : Quantity) : Quantity :=
  mkQ (si q) (si_unit (dim (unit q))).

Definition q_mul (a b : Quantity) : Quantity :=
  mkQ (value a * value b) (unit_mul (unit a) (unit b)).

Definition q_div (a b : Quantity) : Quantity :=
  mkQ (value a / value b) (unit_div (unit a) (unit b)).

Definition q_pow (a : Quantity) (n : Z) : Quantity :=
  mkQ (powerRZ (value a) n) (unit_pow (unit a) n).

Definition q_neg (a : Quantity) : Quantity := mkQ (- value a) (unit a).

(** A quantity and a bare number: the number scales the value. *)
Definition q_scale (op : R -> R -> R) (a : Quantity) (x : R) : Quantity :=
  mkQ (op (value a) x) (unit a).

(** A bare number divided by a quantity. *)
Definition q_rdiv (x : R) (a : Quantity) : Quantity :=
  mkQ (x / value a) (unit_pow (unit a) (-1)).

(** A bare number as a quantity of the unscaled dimensionless unit. *)
Definition q_number (x : R) : Quantity := mkQ x dimensionless_unscaled.

(** The value of [b] once converted to the unit of [a]. *)
Definition value_in (a b : Quantity) : R :=
  value b * scale (unit b) / scale (unit a).

(** [a + b] and [a - b] of two quantities of one dimension: [b] is converted
    to the unit of [a], which is the unit of the result. *)
Definition q_addsub (op : R -> R -> R) (a b : Quantity) : Quantity :=
  mkQ (op (value a) (value_in a b)) (unit a).

(** [np.exp] of a dimensionless quantity. *)
Definition q_exp (a : Quantity) : Quantity := q_number (exp (si a)).

(** ** Warnings, exceptions and the call monad *)

Inductive exn : Set :=
| AssertionError
| TypeError
| AttributeError
| UnitConversionError
| UnitTypeError
| UnboundLocalError
| NotImplementedError.

Inductive warning : Set :=
| AstropyWarning (msg : string).

Inductive result (A : Type) : Type :=
| Ok (a : A)
| Raise (e : exn).

Arguments Ok {A} a.
Arguments Raise {A} e.

Definition M (A : Type) : Type := (list warning * result A)%type.

Definition ret {A} (a : A) : M A := ([], Ok a).
Definition raise {A} (e : exn) : M A := ([], Raise e).
Definition warn (w : warning) : M Datatypes.unit := ([w], Ok tt).

Definition bind {A B} (m : M A) (f : A -> M B) : M B :=
  match m with
  | (w, Ok a) => let (w', r) := f a in (w ++ w', r)
  | (w, Raise e) => (w, Raise e)
  end.

Notation "x <- c1 ;; c2" := (bind c1 (fun x => c2))
  (at level 61, c1 at next level, right associativity).
Notation "c1 ;;; c2" := (bind c1 (fun _ => c2))
  (at level 61, right associativity).

Definition py_assert (b : bool) : M Datatypes.unit :=
  if b then ret tt else raise AssertionError.

(** ** Python values *)

Inductive pyval : Type :=
| PNone
| PFloat (x : R)
| PQuantity (q : Quantity).

Definition is_None (a : pyval) : bool :=
  match a with PNone => true | _ => false end.

(** [isinstance(a, u.Quantity)] *)
Definition is_Quantity (a : pyval) : bool :=
  match a with PQuantity _ => true | _ => false end.

(** [a == 0].  astropy lets a bare zero take any unit, so a quantity equals
    zero exactly when its value does; [None == 0] is false. *)
Definition eq_zero (a : pyval) : bool :=
  match a with
  | PNone => false
  | PFloat x => if Req_dec_T x 0 then true else false
  | PQuantity q => if Req_dec_T (value q) 0 then true else false
  end.

Definition py_mul (a b : pyval) : M pyval :=
  match a, b with
  | PFloat x, PFloat y => ret (PFloat (x * y))
  | PFloat x, PQuantity q => ret (PQuantity (q_scale Rmult q x))
  | PQuantity q, PFloat y => ret (PQuantity (q_scale Rmult q y))
  | PQuantity p, PQuantity q => ret (PQuantity (q_mul p q))
  | _, _ => raise TypeError
  end.

Definition py_div (a b : pyval) : M pyval :=
  match a, b with
  | PFloat x, PFloat y => ret (PFloat (x / y))
  | PFloat x, PQuantity q => ret (PQuantity (q_rdiv x q))
  | PQuantity q, PFloat y => ret (PQuantity (q_scale Rdiv q y))
  | PQuantity p, PQuantity q => ret (PQuantity (q_div p q))
  | _, _ => raise TypeError
  end.

(** Addition and subtraction share their unit handling: two quantities need
    one dimension and the right operand is converted to the unit of the left;
    a bare number goes with a dimensionless quantity, which is first brought
    to the unscaled unit, or with any quantity when the number is zero. *)
Definition py_addsub (op : R -> R -> R) (a b : pyval) : M pyval :=
  match a, b with
  | PFloat x, PFloat y => ret (PFloat (op x y))
  | PFloat x, PQuantity q =>
      if is_equivalent (unit q) dimensionless_unscaled
      then ret (PQuantity (q_number (op x (si q))))
      else if Req_dec_T x 0
      then ret (PQuantity (mkQ (op 0 (value q)) (unit q)))
      else raise UnitConversionError
  | PQuantity q, PFloat y =>
      if is_equivalent (unit q) dimensionless_unscaled
      then ret (PQuantity (q_number (op (si q) y)))
      else if Req_dec_T y 0
      then ret (PQuantity (mkQ (op (value q) 0) (unit q)))
      else raise UnitConversionError
  | PQuantity p, PQuantity q =>
      if is_equivalent (unit p) (unit q)
      then ret (PQuantity (q_addsub op p q))
      else raise UnitConversionError
  | _, _ => raise TypeError
  end.

Definition py_add : pyval -> pyval -> M pyval := py_addsub Rplus.
Definition py_sub : pyval -> pyval -> M pyval := py_addsub Rminus.

(** [a ** n] for an integer literal [n]. *)
Definition py_pow (a : pyval) (n : Z) : M pyval :=
  match a with
  | PNone => raise TypeError
  | PFloat x => ret (PFloat (powerRZ x n))
  | PQuantity q => ret (PQuantity (q_pow q n))
  end.

(** [-a] *)
Definition py_neg (a : pyval) : M pyval :=
  match a with
  | PNone => raise TypeError
  | PFloat x => ret (PFloat (- x))
  | PQuantity q => ret (PQuantity (q_neg q))
  end.

(** [np.exp(a)]: a quantity must be dimensionless and is brought to the
    unscaled unit first. *)
Definition np_exp (a : pyval) : M pyval :=
  match a with
  | PNone => raise TypeError
  | PFloat x => ret (PFloat (exp x))
  | PQuantity q =>
      if is_equivalent (unit q) dimensionless_unscaled
      then ret (PQuantity (q_exp q))
      else raise UnitTypeError
  end.

(** [a < b] of two quantities of one dimension. *)
Definition q_ltb (a b : Quantity) : bool :=
  if Rlt_dec (value a) (value_in a b) then true else false.

(** [a < b] *)
Definition py_lt (a b : pyval) : M bool :=
  match a, b with
  | PFloat x, PFloat y => ret (if Rlt_dec x y then true else false)
  | PQuantity p, PQuantity q =>
      if is_equivalent (unit p) (unit q)
      then ret (q_ltb p q)
      else raise UnitConversionError
  | PFloat x, PQuantity q =>
      if is_equivalent (unit q) dimensionless_unscaled
      then ret (if Rlt_dec x (si q) then true else false)
      else raise UnitConversionError
  | PQuantity q, PFloat y =>
      if is_equivalent (unit q) dimensionless_unscaled
      then ret (if Rlt_dec (si q) y then true else false)
      else raise UnitConversionError
  | _, _ => raise TypeError
  end.

(** [a.decompose()] *)
Definition py_decompose (a : pyval) : M pyval :=
  match a with
  | PQuantity q => ret (PQuantity (decompose q))
  | _ => raise AttributeError
  end.

(** [a.value] *)
Definition py_value (a : pyval) : M R :=
  match a with
  | PQuantity q => ret (value q)
  | _ => raise AttributeError
  end.

(** [a.to(u)] *)
Definition py_to (a : pyval) (u : Unit) : M pyval :=
  match a with
  | PQuantity q =>
      if is_equivalent (unit q) u
      then ret (PQuantity (mkQ (si q / scale u) u))
      else raise UnitConversionError
  | _ => raise AttributeError
  end.

(** [a.unit] *)
Definition py_unit (a : pyval) : M Unit :=
  match a with
  | PQuantity q => ret (unit q)
  | _ => raise AttributeError
  end.

(** Python expressions: operands are evaluated left to right, then the
    operator is applied. *)
Definition lift2 {A} (op : pyval -> pyval -> M A) (a b : M pyval) : M A :=
  x <- a ;; y <- b ;; op x y.

Notation "a *! b" := (lift2 py_mul a b) (at level 40, left associativity).
Notation "a /! b" := (lift2 py_div a b) (at level 40, left associativity).
Notation "a +! b" := (lift2 py_add a b) (at level 50, left associativity).
Notation "a -! b" := (lift2 py_sub a b) (at level 50, left associativity).
Notation "a <! b" := (lift2 py_lt a b) (at level 70, no associativity).
Notation "a ^! n" := (x <- a ;; py_pow x n) (at level 30, right associativity).
Notation "'neg!' a" := (x <- a ;; py_neg x) (at level 35, right associativity).
Notation "# x" := (ret (PFloat x)) (at level 9, x at level 9).
Notation "$ x" := (ret x) (at level 9, x at level 9).

(** ** The geometry collaborator ([sbpy.activity.core]) *)

(** An ephemeris; the coma model reads the geocentric distance only. *)
Record Ephem : Type := mkEphem {
  delta : Quantity
}.

(** A limit of integration: a float or [np.inf]. *)
Inductive limit : Type :=
| Finite (x : R)
| PosInf.

(** The aperture kinds.  The shape of an annular or a rectangular aperture
    is one two-element quantity: two values under one unit.  A subclass of
    [Aperture] that is none of the four kinds is [OtherAperture]. *)
Inductive Aperture : Type :=
| CircularAperture (radius : Quantity)
| AnnularAperture (shape0 shape1 : R) (shape_unit : Unit)
| RectangularAperture (shape0 shape1 : R) (shape_unit : Unit)
| GaussianAperture (sigma : Quantity)
| OtherAperture (dim0 : Quantity).

(** The argument of [total_number]: an [Aperture] or a bare radius. *)
Inductive aper_arg : Type :=
| Aper (a : Aperture)
| Radius (rho : Quantity).

Section Gas.

(** *** What the environment provides *)

(** Whether [import scipy] succeeds. *)
Variable scipy_present : bool.
(** [scipy.special.iti0k0]: the integrals from 0 to x of I0 and of K0. *)
Variable iti0k0 : R -> R * R.
(** [scipy.special.k1] *)
Variable k1 : R -> R.
(** [scipy.integrate.quad(f, a, b)]: the integral and an error estimate. *)
Variable quad : (R -> M R) -> R -> limit -> M (R * R).
(** [scipy.integrate.dblquad(f, a, b, g, h)], with [f(y, x)] integrated for
    [x] from [a] to [b] and [y] from [g(x)] to [h(x)]. *)
Variable dblquad :
  (R -> R -> M R) -> R -> R -> (R -> R) -> (R -> R) -> M (R * R).
(** The projected length, in metres, that an angle in radians subtends at a
    distance in metres. *)
Variable sky_projection : R -> R -> R.
(** [aper(rho)] of a Gaussian aperture: the beam response at [rho]. *)
Variable gaussian_response : Quantity -> Quantity -> M pyval.

(** Modelled from the spec: [core.rho_as_length] is not among the sources.
    The spec has a projected distance be a length or an angle, an angle being
    converted to a length with the geocentric distance of the ephemeris, which
    is then required; any other dimension is a validation failure.  The
    conversion acts on the unit, so it is given as the map on values together
    with the resulting unit. *)
Definition length_conversion (u : Unit) (eph : option Ephem)
  : M ((R -> R) * Unit) :=
  if is_equivalent u u_rad then
    match eph with
    | None => raise TypeError
    | Some e =>
        if is_equivalent (unit (delta e)) u_m
        then ret (fun x => sky_projection (si (delta e)) (x * scale u), u_m)
        else raise UnitConversionError
    end
  else if is_equivalent u u_m then ret (fun x => x, u)
  else raise AssertionError.

(** Modelled from the spec: [core.rho_as_length], see [length_conversion]. *)
Definition rho_as_length (rho : Quantity) (eph : option Ephem) : M Quantity :=
  c <- length_conversion (unit rho) eph ;;
  ret (mkQ (fst c (value rho)) (snd c)).

(** Modelled from the spec: [Aperture.as_length] is not among the sources.
    An aperture converts itself to linear units given an ephemeris: the same
    kind of aperture with its dimensions converted. *)
Definition as_length (aper : Aperture) (eph : option Ephem) : M Aperture :=
  match aper with
  | CircularAperture radius =>
      r <- rho_as_length radius eph ;; ret (CircularAperture r)
  | AnnularAperture s0 s1 u =>
      c <- length_conversion u eph ;;
      ret (AnnularAperture (fst c s0) (fst c s1) (snd c))
  | RectangularAperture s0 s1 u =>
      c <- length_conversion u eph ;;
      ret (RectangularAperture (fst c s0) (fst c s1) (snd c))
  | GaussianAperture sigma =>
      s <- rho_as_length sigma eph ;; ret (GaussianAperture s)
  | OtherAperture d =>
      d' <- rho_as_length d eph ;; ret (OtherAperture d')
  end.

(** ** GasComa *)

Record GasComa : Type := mkGasComa {
  gc_Q : pyval;
  gc_v : pyval
}.

(** [GasComa.__init__] *)
Definition GasComa_init (Q v : pyval) : M GasComa :=
  py_assert (is_Quantity Q) ;;;
  uQ <- py_unit Q ;;
  py_assert (is_equivalent uQ (unit_pow u_s (-1))
             || is_equivalent uQ (unit_div u_mol u_s)) ;;;
  py_assert (is_Quantity v) ;;;
  uv <- py_unit v ;;
  py_assert (is_equivalent uv (unit_div u_m u_s)) ;;;
  ret (mkGasComa Q v).

(** [GasComa._integrate_column_density], for a model whose [column_density]
    method is [column_density]. *)
Definition _integrate_column_density
    (column_density : Quantity -> option Ephem -> M pyval)
    (aper : Aperture) : M pyval :=
  if negb scipy_present then
    warn (AstropyWarning
            "scipy is not present, cannot integrate column density.") ;;;
    ret PNone
  else
    match aper with
    | CircularAperture radius =>
        let f := fun rho =>
          s <- column_density (mkQ rho u_km) None ;;
          sv <- py_value s ;; ret (rho * sv) in
        rk <- py_to (PQuantity radius) u_km ;;
        b <- py_value rk ;;
        Ne <- quad f 0 (Finite b) ;;
        ret (PFloat (fst Ne * (2 * PI)))
    | AnnularAperture s0 s1 u =>
        let f := fun rho =>
          s <- column_density (mkQ rho u_km) None ;;
          sv <- py_value s ;; ret (rho * sv) in
        a <- (k <- py_to (PQuantity (mkQ s0 u)) u_km ;; py_value k) ;;
        b <- (k <- py_to (PQuantity (mkQ s1 u)) u_km ;; py_value k) ;;
        Ne <- quad f a (Finite b) ;;
        ret (PFloat (fst Ne * (2 * PI)))
    | RectangularAperture s0 s1 u =>
        let f := fun rho (th : R) =>
          s <- column_density (mkQ rho u_km) None ;;
          sv <- py_value s ;; ret (rho * sv) in
        shape0 <- (k <- py_to (PQuantity (mkQ s0 u)) u_km ;; py_value k) ;;
        shape1 <- (k <- py_to (PQuantity (mkQ s1 u)) u_km ;; py_value k) ;;
        (* first octant *)
        let g := fun th : R => 0 in
        let h := fun th => shape0 / 2 / cos th in
        let th := atan (shape0 / shape1) in
        N1 <- dblquad f 0 th g h ;;
        (* second octant *)
        let g := fun th : R => 0 in
        let h := fun th => shape1 / 2 / cos th in
        let th := atan (shape1 / shape0) in
        N2 <- dblquad f 0 th g h ;;
        ret (PFloat (4 * (fst N1 + fst N2)))
    | GaussianAperture sigma =>
        let f := fun rho =>
          w <- gaussian_response sigma (mkQ rho u_km) ;;
          wv <- py_value w ;;
          s <- column_density (mkQ rho u_km) None ;;
          sv <- py_value s ;; ret (rho * wv * sv) in
        Ne <- quad f 0 PosInf ;;
        ret (PFloat (fst Ne * (2 * PI)))
    | OtherAperture _ => raise UnboundLocalError
    end.

(** ** Haser *)

(** The attributes of a [Haser] instance.  [bib.register] only records a
    citation and is left out. *)
Record Haser : Type := mkHaser {
  self_Q : pyval;
  self_v : pyval;
  self_parent : pyval;
  self_daughter : pyval
}.

(** [Haser.__init__] *)
Definition Haser_init (Q v parent daughter : pyval) : M Haser :=
  base <- GasComa_init Q v ;;
  py_assert (is_Quantity parent) ;;;
  up <- py_unit parent ;;
  py_assert (is_equivalent up u_m) ;;;
  if is_None daughter then
    ret (mkHaser (gc_Q base) (gc_v base) parent PNone)
  else
    py_assert (is_Quantity daughter) ;;;
    ud <- py_unit daughter ;;
    py_assert (is_equivalent ud u_m) ;;;
    ret (mkHaser (gc_Q base) (gc_v base) parent daughter).

(** [Haser.volume_density] *)
Definition volume_density (self : Haser) (r : pyval) : M pyval :=
  py_assert (is_Quantity r) ;;;
  ur <- py_unit r ;;
  py_assert (is_equivalent ur u_m) ;;;
  n <- $(self_Q self) /! #4 /! #PI /! $r ^! 2 /! $(self_v self) ;;
  if is_None (self_daughter self) || eq_zero (self_daughter self) then
    (* parent only *)
    n <- $n *! (e <- neg! $r /! $(self_parent self) ;; np_exp e) ;;
    py_decompose n
  else
    n <- $n *! ($(self_daughter self)
                 /! ($(self_parent self) -! $(self_daughter self))
                *! ((e <- neg! $r /! $(self_parent self) ;; np_exp e)
                    -! (e <- neg! $r /! $(self_daughter self) ;; np_exp e))) ;;
    py_decompose n.

(** [Haser._iK0]: the integral of the modified Bessel function of the 2nd
    kind, 0th order. *)
Definition _iK0 (x : pyval) : M pyval :=
  if negb scipy_present then
    warn (AstropyWarning "scipy is not present, cannot continue.") ;;;
    ret PNone
  else
    d <- py_decompose x ;;
    dv <- py_value d ;;
    ret (PFloat (snd (iti0k0 dv))).

(** [Haser._K1]: the modified Bessel function of the 2nd kind, 1st order. *)
Definition _K1 (x : pyval) : M pyval :=
  if negb scipy_present then
    warn (AstropyWarning "scipy is not present, cannot continue.") ;;;
    ret PNone
  else
    d <- py_decompose x ;;
    dv <- py_value d ;;
    ret (PFloat (k1 dv)).

(** [Haser.column_density] *)
Definition column_density (self : Haser) (rho : Quantity)
    (eph : option Ephem) : M pyval :=
  r <- rho_as_length rho eph ;;
  x <- (if is_None (self_parent self) then #0
        else $(PQuantity r) /! $(self_parent self)) ;;
  y <- (if is_None (self_daughter self) then #0
        else $(PQuantity r) /! $(self_daughter self)) ;;
  sigma <- $(self_Q self) /! #2 /! #PI /! $(PQuantity r) /! $(self_v self) ;;
  if is_None (self_daughter self) || eq_zero (self_daughter self) then
    $sigma *! (#(PI / 2) -! _iK0 x)
  else if is_None (self_parent self) || eq_zero (self_parent self) then
    $sigma *! (#(PI / 2) -! _iK0 y)
  else
    below <- ($(self_parent self) <! $(self_daughter self)) ;;
    if (below : bool) then
      $sigma *! ($(self_parent self)
                  /! ($(self_daughter self) -! $(self_parent self))
                 *! (_iK0 x -! _iK0 y))
    else
      $sigma *! ($(self_daughter self)
                  /! ($(self_parent self) -! $(self_daughter self))
                 *! (_iK0 y -! _iK0 x)).

(** The tail of [Haser.total_number]: the solution for the circular aperture
    of radius [rho], already a length. *)
Definition total_number_circular (self : Haser) (rho : Quantity) : M pyval :=
  x <- (if is_None (self_parent self) then #0
        else $(PQuantity rho) /! $(self_parent self)) ;;
  y <- (if is_None (self_daughter self) then #0
        else $(PQuantity rho) /! $(self_daughter self)) ;;
  N <- (if is_None (self_daughter self) || eq_zero (self_daughter self) then
          $(self_Q self) *! $(self_parent self) /! $(self_v self)
          *! (#1 +! $x *! (_K1 x +! #(PI / 2) -! _iK0 x))
        else if is_None (self_parent self) || eq_zero (self_parent self) then
          $(self_Q self) *! $(self_daughter self) /! $(self_v self)
          *! (#1 +! $y *! (_K1 y +! #(PI / 2) -! _iK0 y))
        else
          $(self_Q self) *! $(PQuantity rho) /! $(self_v self)
          *! $(self_daughter self)
          /! ($(self_parent self) -! $(self_daughter self))
          *! (_iK0 y -! _iK0 x +! $x ^! (-1) -! $y ^! (-1)
              +! _K1 y -! _K1 x)) ;;
  py_decompose N.

(** [Haser.total_number] called with a bare radius. *)
Definition total_number_radius (self : Haser) (aper : Quantity)
    (eph : option Ephem) : M pyval :=
  rho <- rho_as_length aper eph ;;
  total_number_circular self rho.

(** [Haser.total_number].  The method calls itself on the two radii of an
    annulus only, each a bare quantity, which takes the call to
    [total_number_radius] with no ephemeris. *)
Definition total_number (self : Haser) (aper : aper_arg)
    (eph : option Ephem) : M pyval :=
  match aper with
  | Aper a =>
      a <- as_length a eph ;;
      match a with
      | RectangularAperture _ _ _ | GaussianAperture _ =>
          _integrate_column_density (column_density self) a
      | AnnularAperture s0 s1 u =>
          total_number_radius self (mkQ s1 u) None
          -! total_number_radius self (mkQ s0 u) None
      | CircularAperture radius =>
          total_number_circular self radius
      | OtherAperture _ =>
          (* raise NotImplemented(...): NotImplemented is not callable *)
          raise TypeError
      end
  | Radius q => total_number_radius self q eph
  end.

End Gas.

(** ** Vocabulary of the statements *)

(** The unit of a production rate: per time, or amount per time. *)
Definition rate_unit_ok (u : Unit) : bool :=
  is_equivalent u (unit_pow u_s (-1)) || is_equivalent u (unit_div u_mol u_s).

(** The unit of an outflow speed: length per time. *)
Definition speed_unit_ok (u : Unit) : bool :=
  is_equivalent u (unit_div u_m u_s).

Definition length_unit_ok (u : Unit) : bool := is_equivalent u u_m.

Definition has_unit (ok : Unit -> bool) (a : pyval) : bool :=
  match a with PQuantity q => ok (unit q) | _ => false end.

(** What [Haser.__init__] asserts of its arguments, in one test. *)
Definition valid_args (Q v parent daughter : pyval) : bool :=
  has_unit rate_unit_ok Q && has_unit speed_unit_ok v &&
  has_unit length_unit_ok parent &&
  (is_None daughter || has_unit length_unit_ok daughter).

(** The models that [Haser.__init__] can return. *)
Definition constructed (m : Haser) : Prop :=
  exists Q v parent daughter, Haser_init Q v parent daughter = ret m.

(** The SI magnitude of an attribute; an absent one counts for zero. *)
Definition magnitude (a : pyval) : R :=
  match a with
  | PNone => 0
  | PFloat x => x
  | PQuantity q => si q
  end.

(** The ratio of a distance to a lengthscale, as [column_density] and
    [total_number] take it: zero when the lengthscale is absent. *)
Definition ratio (r : R) (a : pyval) : R :=
  match a with PNone => 0 | _ => r / magnitude a end.

(** The warning of [_iK0] and [_K1] when scipy cannot be imported. *)
Definition cannot_continue : warning :=
  AstropyWarning "scipy is not present, cannot continue.".

(** The integrand of the polar integrals of [_integrate_column_density]:
    [rho * self.column_density(rho * u.km).value]. *)
Definition polar_integrand
    (column_density : Quantity -> option Ephem -> M pyval)
    (rho : R) : M R :=
  s <- column_density (mkQ rho u_km) None ;;
  sv <- py_value s ;; ret (rho * sv).

(** The rectangular decomposition in the words of the spec, for a rectangle
    of widths [a] and [b] in km: sector 1 over the angles from 0 to atan(a/b)
    with radial bound b/(2 cos th), sector 2 over the angles from 0 to
    atan(b/a) with radial bound a/(2 cos th), and four times their sum. *)
Definition rectangular_as_specified
    (dblquad :
       (R -> R -> M R) -> R -> R -> (R -> R) -> (R -> R) -> M (R * R))
    (column_density : Quantity -> option Ephem -> M pyval)
    (a b : R) : M pyval :=
  sector1 <- dblquad (fun rho _ => polar_integrand column_density rho)
               0 (atan (a / b)) (fun _ => 0) (fun th => b / (2 * cos th)) ;;
  sector2 <- dblquad (fun rho _ => polar_integrand column_density rho)
               0 (atan (b / a)) (fun _ => 0) (fun th => a / (2 * cos th)) ;;
  ret (PFloat (4 * (fst sector1 + fst sector2))).

(** A stand-in for [dblquad] that only reports the calls made to it: the
    upper angle times the radial limit at angle zero. *)
Definition reporting_dblquad (f : R -> R -> M R) (a b : R) (g h : R -> R)
  : M (R * R) :=
  ret (b * h 0, 0).

(** ** The scenario of the spec

    Q = 1e28 /s, v = 1 km/s, parent = 2.4e4 km, daughter = 1.6e5 km, and a
    distance of 1e4 km; with stand-ins for what the environment provides. *)

Definition Q_ex : Quantity := mkQ (10 ^ 28) (unit_pow u_s (-1)).
Definition v_ex : Quantity := mkQ 1 (unit_div u_km u_s).
Definition parent_ex : Quantity := mkQ 24000 u_km.
Definition daughter_ex : Quantity := mkQ 160000 u_km.
Definition r_ex : Quantity := mkQ 10000 u_km.

(** Parent only. *)
Definition haser_parent_only : Haser :=
  mkHaser (PQuantity Q_ex) (PQuantity v_ex) (PQuantity parent_ex) PNone.

(** Parent and daughter. *)
Definition haser_two_species : Haser :=
  mkHaser (PQuantity Q_ex) (PQuantity v_ex) (PQuantity parent_ex)
          (PQuantity daughter_ex).

(** A parent lengthscale of zero. *)
Definition haser_zero_parent : Haser :=
  mkHaser (PQuantity Q_ex) (PQuantity v_ex) (PQuantity (mkQ 0 u_km))
          (PQuantity daughter_ex).

(** Daughter equal to parent. *)
Definition haser_equal : Haser :=
  mkHaser (PQuantity Q_ex) (PQuantity v_ex) (PQuantity parent_ex)
          (PQuantity parent_ex).

Definition zero_iti0k0 (x : R) : R * R := (0, 0).
Definition zero_k1 (x : R) : R := 0.
Definition zero_quad (f : R -> M R) (a : R) (b : limit) : M (R * R) :=
  ret (0, 0).
Definition small_angle (distance angle : R) : R := distance * angle.
Definition flat_response (sigma rho : Quantity) : M pyval := ret (PFloat 1).

(** ** Vocabulary of the further properties *)

(** The model with its daughter lengthscale removed. *)
Definition without_daughter (m : Haser) : Haser :=
  mkHaser (self_Q m) (self_v m) (self_parent m) PNone.

(** The dimension of the production rate times time: a pure number for a
    rate per time, an amount of substance for a rate in amount per time. *)
Definition dim_number (m : Haser) : Dim :=
  match self_Q m with
  | PQuantity q => dim_mul (dim (unit q)) dim_time
  | _ => dim_one
  end.

(** The warning of [_integrate_column_density] when scipy cannot be
    imported. *)
Definition cannot_integrate : warning :=
  AstropyWarning "scipy is not present, cannot integrate column density.".

(** A daughter lengthscale of zero. *)
Definition haser_zero_daughter : Haser :=
  mkHaser (PQuantity Q_ex) (PQuantity v_ex) (PQuantity parent_ex)
          (PQuantity (mkQ 0 u_km)).

(** ** The photodissociation lookups

    [photo_lengthscale] and [photo_timescale].  Strings are strings of ASCII
    characters.  The error messages of the assertions are left out. *)

Module Photo.

(** [str.upper()] *)
Definition upper_ascii (c : ascii) : ascii :=
  let n := N_of_ascii c in
  if ((97 <=? n) && (n <=? 122))%N then ascii_of_N (n - 32) else c.

Fixpoint upper (s : string) : string :=
  match s with
  | EmptyString => EmptyString
  | String c s' => String (upper_ascii c) (upper s')
  end.

(** A dict with string keys, in insertion order. *)
Definition dict (V : Type) : Type := list (string * V).

Fixpoint dict_get {V} (k : string) (d : dict V) : option V :=
  match d with
  | [] => None
  | (k', v) :: d' => if String.eqb k k' then Some v else dict_get k d'
  end.

(** [k in d] *)
Definition dict_in {V} (k : string) (d : dict V) : bool :=
  match dict_get k d with Some _ => true | None => false end.

Inductive error : Set :=
| AssertionError
| KeyError.

(** A call registers citations with [bib.register], each a task and a
    bibcode, and then returns or raises. *)
Definition L (A : Type) : Type :=
  (list (string * string) * (error + A))%type.

Definition ret {A} (a : A) : L A := ([], inr a).
Definition raise {A} (e : error) : L A := ([], inl e).
Definition register (task bibcode : string) : L Datatypes.unit :=
  ([(task, bibcode)], inr tt).

Definition bind {A B} (m : L A) (f : A -> L B) : L B :=
  match m with
  | (c, inr a) => let (c', r) := f a in (c ++ c', r)
  | (c, inl e) => (c, inl e)
  end.

Definition assert (b : bool) : L Datatypes.unit :=
  if b then ret tt else raise AssertionError.

(** [d[k]] *)
Definition index {V} (d : dict V) (k : string) : L V :=
  match dict_get k d with
  | Some v => ret v
  | None => raise KeyError
  end.

(** A timescale: one quantity, or a two-element quantity (quiet Sun, active
    Sun). *)
Inductive timescale : Type :=
| Scalar (tau : Quantity)
| Pair (quiet active : R) (u : Unit).

Definition lengthscale_data : dict (dict (Quantity * string)) :=
  [ ("H2O", [("CS93", (mkQ 24000 u_km, "1993Icar..105..235C"))]);
    ("OH", [("CS93", (mkQ 160000 u_km, "1993Icar..105..235C"))]) ]%string.

Definition lengthscale_default_sources : dict string :=
  [ ("H2O", "CS93"); ("OH", "CS93") ]%string.

(** [photo_lengthscale(species, source=None)] *)
Definition photo_lengthscale (species : string) (source : option string)
  : L Quantity :=
  bind (assert (dict_in (upper species) lengthscale_data)) (fun _ =>
  bind (index lengthscale_data (upper species)) (fun gas =>
  bind (match source with
        | None => index lengthscale_default_sources (upper species)
        | Some s => ret s
        end) (fun source =>
  bind (assert (dict_in (upper source) gas)) (fun _ =>
  bind (index gas (upper source)) (fun entry =>
  bind (register "activity.gas.photo_lengthscale" (snd entry)) (fun _ =>
  ret (fst entry))))))).

Definition timescale_data : dict (dict (timescale * string)) :=
  [ ("H2O", [("CS93", (Scalar (mkQ 52000 u_s), "1993Icar..105..235C"))]);
    ("OH", [("CS93", (Scalar (mkQ 160000 u_s), "1993Icar..105..235C"))]);
    ("CO2", [("CE83", (Scalar (mkQ 500000 u_s), "1983A%26A...126..170C"))]);
    ("CO", [("CE83", (Scalar (mkQ 1500000 u_s), "1983A%26A...126..170C"))]);
    ("CN", [("H92", (Pair 315000 135000 u_s, "1992Ap%26SS.195....1H"))])
  ]%string.

Definition timescale_default_sources : dict string :=
  [ ("H2O", "CS93"); ("OH", "CS93"); ("CO2", "CE83"); ("CO", "CE83");
    ("CN", "H92") ]%string.

(** What [photo_timescale] returns: [None] after printing the summary
    table, which goes to the standard output and is left out, or a
    timescale. *)
Inductive timescale_result : Type :=
| Summary
| Timescale (tau : timescale).

(** [photo_timescale(species, source=None)] *)
Definition photo_timescale (species : option string)
    (source : option string) : L timescale_result :=
  match species with
  | None => ret Summary
  | Some species =>
    bind (assert (dict_in (upper species) timescale_data)) (fun _ =>
    bind (index timescale_data (upper species)) (fun gas =>
    bind (match source with
          | None => index timescale_default_sources (upper species)
          | Some s => ret s
          end) (fun source =>
    bind (assert (dict_in (upper source) gas)) (fun _ =>
    bind (index gas (upper source)) (fun entry =>
    bind (register "activity.gas.photo_timescale" (snd entry)) (fun _ =>
    ret (Timescale (fst entry))))))))
  end.

(** Whether the source asked for is the one the table has, under [key]:
    no source asked for, or [key] itself up to case. *)
Definition accepts (source : option string) (key : string) : bool :=
  match source with
  | None => true
  | Some s => String.eqb (upper s) key
  end.

End Photo.

(** * Properties *)

(** ** The call monad *)

Lemma bind_ret_l {A B} (a : A) (f : A -> M B) : bind (ret a) f = f a.
Proof. unfold bind, ret. destruct (f a); reflexivity. Qed.

Lemma bind_raise {A B} (e : exn) (f : A -> M B) : bind (raise e) f = raise e.
Proof. reflexivity. Qed.

Lemma bind_ret_r {A} (m : M A) : bind m ret = m.
Proof.
  destruct m as [w [a|e]]; simpl; [rewrite app_nil_r|]; reflexivity.
Qed.

Lemma bind_assoc {A B C} (m : M A) (f : A -> M B) (g : B -> M C) :
  bind (bind m f) g = bind m (fun a => bind (f a) g).
Proof.
  destruct m as [w [a|e]]; simpl; [|reflexivity].
  destruct (f a) as [w1 [b|e1]]; simpl; [|reflexivity].
  destruct (g b) as [w2 r]. rewrite app_assoc. reflexivity.
Qed.

(** ** Dimensions and units *)

Lemma dim_eqb_eq (a b : Dim) : dim_eqb a b = true <-> a = b.
Proof.
  destruct a, b; unfold dim_eqb; simpl.
  rewrite !andb_true_iff, !Z.eqb_eq. split.
  - intros [[[[[[[-> ->] ->] ->] ->] ->] ->] ->]. reflexivity.
  - intros H; injection H; intros; subst; tauto.
Qed.

Lemma dim_eqb_refl (a : Dim) : dim_eqb a a = true.
Proof. apply dim_eqb_eq. reflexivity. Qed.

Lemma is_equivalent_dim (a b : Unit) :
  is_equivalent a b = true <-> dim a = dim b.
Proof. apply dim_eqb_eq. Qed.

Lemma scale_neq_0 (u : Unit) : scale u <> 0.
Proof. pose proof (scale_pos u). lra. Qed.

(** ** The SI magnitude is a homomorphism *)

Lemma si_q_mul (a b : Quantity) : si (q_mul a b) = si a * si b.
Proof. unfold si. simpl. ring. Qed.

Lemma si_q_pow (a : Quantity) (n : Z) : si (q_pow a n) = powerRZ (si a) n.
Proof. unfold si. simpl. rewrite powerRZ_mult. reflexivity. Qed.

Lemma si_q_div (a b : Quantity) : si (q_div a b) = si a / si b.
Proof.
  unfold si. simpl. unfold Rdiv. rewrite Rmult_1_r, Rinv_mult. ring.
Qed.

Lemma si_q_neg (a : Quantity) : si (q_neg a) = - si a.
Proof. unfold si. simpl. ring. Qed.

Lemma si_q_scale_mul (a : Quantity) (x : R) :
  si (q_scale Rmult a x) = si a * x.
Proof. unfold si. simpl. ring. Qed.

Lemma si_q_scale_div (a : Quantity) (x : R) :
  si (q_scale Rdiv a x) = si a / x.
Proof. unfold si. simpl. unfold Rdiv. ring. Qed.

Lemma si_q_rdiv (x : R) (a : Quantity) : si (q_rdiv x a) = x / si a.
Proof.
  unfold si. simpl. unfold Rdiv. rewrite Rmult_1_r, Rinv_mult. ring.
Qed.

Lemma si_q_number (x : R) : si (q_number x) = x.
Proof. unfold si. simpl. ring. Qed.

Lemma si_q_exp (a : Quantity) : si (q_exp a) = exp (si a).
Proof. apply si_q_number. Qed.

Lemma si_value_in (a b : Quantity) : value_in a b * scale (unit a) = si b.
Proof.
  unfold value_in, si. field. apply scale_neq_0.
Qed.

Lemma si_q_add (a b : Quantity) : si (q_addsub Rplus a b) = si a + si b.
Proof.
  unfold q_addsub. unfold si at 1. simpl.
  rewrite Rmult_plus_distr_r, si_value_in. reflexivity.
Qed.

Lemma si_q_sub (a b : Quantity) : si (q_addsub Rminus a b) = si a - si b.
Proof.
  unfold q_addsub. unfold si at 1. simpl.
  unfold Rminus. rewrite Rmult_plus_distr_r, Ropp_mult_distr_l_reverse.
  rewrite si_value_in. reflexivity.
Qed.

Lemma si_decompose (a : Quantity) : si (decompose a) = si a.
Proof. unfold decompose. unfold si at 1. simpl. ring. Qed.

Lemma q_ltb_si (a b : Quantity) : q_ltb a b = true <-> si a < si b.
Proof.
  unfold q_ltb. pose proof (scale_pos (unit a)) as Hs.
  rewrite <- (si_value_in a b). unfold si at 1.
  destruct (Rlt_dec (value a) (value_in a b)) as [H|H]; split; intro H0;
    try reflexivity; try discriminate.
  - apply Rmult_lt_compat_r; assumption.
  - exfalso. apply H. apply Rmult_lt_reg_r with (scale (unit a)); assumption.
Qed.

Lemma value_0_si (a : Quantity) : value a = 0 <-> si a = 0.
Proof.
  unfold si. pose proof (scale_neq_0 (unit a)). split; intro H0.
  - rewrite H0. ring.
  - apply Rmult_integral in H0. tauto.
Qed.

Lemma eq_zero_si (a : Quantity) : eq_zero (PQuantity a) = true <-> si a = 0.
Proof.
  rewrite <- value_0_si. simpl.
  destruct (Req_dec_T (value a) 0); split; intro; try discriminate; tauto.
Qed.

Lemma eq_zero_false_si (a : Quantity) :
  eq_zero (PQuantity a) = false <-> si a <> 0.
Proof.
  rewrite <- eq_zero_si. destruct (eq_zero (PQuantity a)); split; intro;
    try discriminate; try reflexivity; tauto.
Qed.

Create Rewrite HintDb si_simpl.

#[global] Hint Rewrite si_q_mul si_q_pow si_q_div si_q_neg si_q_scale_mul
  si_q_scale_div si_q_rdiv si_q_number si_q_exp si_q_add si_q_sub
  si_decompose : si_simpl.

Arguments q_mul : simpl never.
Arguments q_div : simpl never.
Arguments q_pow : simpl never.
Arguments q_neg : simpl never.
Arguments q_scale : simpl never.
Arguments q_rdiv : simpl never.
Arguments q_number : simpl never.
Arguments q_addsub : simpl never.
Arguments q_exp : simpl never.
Arguments q_ltb : simpl never.
Arguments decompose : simpl never.
Arguments si : simpl never.
Arguments eq_zero : simpl never.

(** ** Construction *)

Lemma GasComa_init_eq (Q v : pyval) :
  GasComa_init Q v =
  if has_unit rate_unit_ok Q && has_unit speed_unit_ok v
  then ret (mkGasComa Q v) else raise AssertionError.
Proof.
  unfold GasComa_init, rate_unit_ok, speed_unit_ok.
  destruct Q as [| |qQ]; try reflexivity.
  destruct v as [| |qv]; simpl;
    destruct (is_equivalent (unit qQ) (unit_pow u_s (-1))
              || is_equivalent (unit qQ) (unit_div u_mol u_s));
    try reflexivity.
  destruct (is_equivalent (unit qv) (unit_div u_m u_s)); reflexivity.
Qed.

Lemma Haser_init_eq (Q v parent daughter : pyval) :
  Haser_init Q v parent daughter =
  if valid_args Q v parent daughter
  then ret (mkHaser Q v parent daughter) else raise AssertionError.
Proof.
  unfold Haser_init, valid_args, length_unit_ok. rewrite GasComa_init_eq.
  destruct (has_unit rate_unit_ok Q && has_unit speed_unit_ok v);
    [|reflexivity].
  rewrite bind_ret_l. simpl gc_Q. simpl gc_v.
  destruct parent as [| |qp]; try reflexivity. simpl.
  destruct (is_equivalent (unit qp) u_m); [|reflexivity]. simpl.
  destruct daughter as [| |qd]; try reflexivity. simpl.
  destruct (is_equivalent (unit qd) u_m); reflexivity.
Qed.

Lemma constructed_inv (m : Haser) :
  constructed m ->
  exists qQ qv qp d,
    m = mkHaser (PQuantity qQ) (PQuantity qv) (PQuantity qp) d /\
    dim (unit qp) = dim_length /\
    (d = PNone \/
     exists qd, d = PQuantity qd /\ dim (unit qd) = dim_length).
Proof.
  intros (Q & v & p & d & H). rewrite Haser_init_eq in H.
  destruct (valid_args Q v p d) eqn:E; [|discriminate].
  injection H as <-. unfold valid_args in E.
  rewrite !andb_true_iff in E. destruct E as [[[EQ Ev] Ep] Ed].
  destruct Q as [| |qQ]; try discriminate.
  destruct v as [| |qv]; try discriminate.
  destruct p as [| |qp]; try discriminate.
  exists qQ, qv, qp, d. split; [reflexivity|].
  split; [apply is_equivalent_dim in Ep; exact Ep|].
  destruct d as [| |qd]; try discriminate; [left; reflexivity|].
  right. exists qd. split; [reflexivity|].
  apply is_equivalent_dim in Ed. exact Ed.
Qed.

Lemma constructed_intro (qQ qv qp : Quantity) (d : pyval) :
  valid_args (PQuantity qQ) (PQuantity qv) (PQuantity qp) d = true ->
  constructed (mkHaser (PQuantity qQ) (PQuantity qv) (PQuantity qp) d).
Proof.
  intro H. exists (PQuantity qQ), (PQuantity qv), (PQuantity qp), d.
  rewrite Haser_init_eq, H. reflexivity.
Qed.

(** ** Evaluation of the model's expressions *)

(** Brings the goal's unit tests to dimensions, which the hypotheses on the
    dimensions of the operands then decide. *)
Ltac dims :=
  cbn [dim unit unit_div unit_mul unit_pow q_div q_mul q_neg q_pow q_scale
       q_rdiv q_number q_exp q_addsub dimensionless_unscaled si_unit u_m
       decompose];
  repeat match goal with
         | H : dim (unit ?q) = _ |- _ => progress rewrite H
         end.

Ltac equiv_step :=
  match goal with
  | |- context [is_equivalent ?a ?b] =>
      let H := fresh "E" in
      assert (H : is_equivalent a b = true)
        by (apply is_equivalent_dim; dims; reflexivity);
      rewrite H; clear H
  end.

Ltac run := simpl; repeat (equiv_step; simpl).

(** Equations between real expressions that differ in how the quotients
    are grouped. *)
Ltac quotients :=
  unfold Rdiv; rewrite ?Rinv_mult, ?Rinv_inv, ?Rinv_1; ring.

Lemma q_ltb_false_si (a b : Quantity) : q_ltb a b = false <-> si a >= si b.
Proof.
  pose proof (q_ltb_si a b) as H. destruct (q_ltb a b); split; intro H0;
    try reflexivity; try discriminate.
  - exfalso. assert (si a < si b) by (apply H; reflexivity). lra.
  - apply Rnot_lt_ge. intro H1. apply H in H1. discriminate.
Qed.

Lemma bind_ret_inv {A B} (m : M A) (f : A -> M B) (b : B) :
  bind m f = ret b -> exists a, m = ret a /\ f a = ret b.
Proof.
  destruct m as [w [a|e]]; simpl; [|discriminate].
  destruct (f a) as [w' r] eqn:E. intros H. injection H as Hw ->.
  apply app_eq_nil in Hw. destruct Hw as [-> ->].
  exists a. split; [reflexivity|exact E].
Qed.

Section Claims.

Variable iti0k0 : R -> R * R.
Variable k1 : R -> R.
Variable quad : (R -> M R) -> R -> limit -> M (R * R).
Variable dblquad :
  (R -> R -> M R) -> R -> R -> (R -> R) -> (R -> R) -> M (R * R).
Variable sky_projection : R -> R -> R.
Variable gaussian_response : Quantity -> Quantity -> M pyval.

(** ** Conversion to a length *)

Lemma length_conversion_cases (u : Unit) (eph : option Ephem) :
  (exists c, length_conversion sky_projection u eph = ret c /\
             dim (snd c) = dim_length) \/
  (exists e, length_conversion sky_projection u eph = raise e).
Proof.
  unfold length_conversion.
  destruct (is_equivalent u u_rad).
  - destruct eph as [e|]; [|right; eexists; reflexivity].
    destruct (is_equivalent (unit (delta e)) u_m);
      [left|right]; eexists; [split|]; reflexivity.
  - destruct (is_equivalent u u_m) eqn:E;
      [left|right]; eexists; [split|]; try reflexivity.
    apply is_equivalent_dim in E. exact E.
Qed.

Lemma rho_as_length_length (rho : Quantity) (eph : option Ephem) r :
  rho_as_length sky_projection rho eph = ret r -> dim (unit r) = dim_length.
Proof.
  unfold rho_as_length. intros H.
  destruct (length_conversion_cases (unit rho) eph)
    as [(c & Hc & Hdim) | (e & He)]; rewrite ?Hc, ?He in H.
  - rewrite bind_ret_l in H. injection H as <-. exact Hdim.
  - discriminate.
Qed.

(** A length converts to itself, with or without an ephemeris. *)
Lemma rho_as_length_id (rho : Quantity) (eph : option Ephem) :
  dim (unit rho) = dim_length ->
  rho_as_length sky_projection rho eph = ret rho.
Proof.
  intros H. unfold rho_as_length, length_conversion.
  assert (E1 : is_equivalent (unit rho) u_rad = false).
  { unfold is_equivalent. rewrite H. reflexivity. }
  assert (E2 : is_equivalent (unit rho) u_m = true).
  { unfold is_equivalent. rewrite H. reflexivity. }
  rewrite E1, E2, bind_ret_l. destruct rho; reflexivity.
Qed.

(** ** The closed forms of the Haser model *)

(** C1.  For a constructed model and a positive length [r], [volume_density]
    returns Q/(4 pi r^2 v) exp(-r/parent) when the daughter lengthscale is
    absent or zero, and Q/(4 pi r^2 v) [daughter/(parent - daughter)]
    [exp(-r/parent) - exp(-r/daughter)] when a nonzero daughter lengthscale,
    different from the parent's, is present.  Magnitudes are SI. *)
Theorem volume_density_closed_form (m : Haser) (r : Quantity) :
  constructed m -> dim (unit r) = dim_length -> 0 < si r ->
  let Q := magnitude (self_Q m) in
  let v := magnitude (self_v m) in
  let parent := magnitude (self_parent m) in
  let daughter := magnitude (self_daughter m) in
  exists n,
    volume_density m (PQuantity r) = ret (PQuantity n) /\
    (self_daughter m = PNone \/ daughter = 0 ->
     si n = Q / (4 * PI * (si r)^2 * v) * exp (- si r / parent)) /\
    (self_daughter m <> PNone -> daughter <> 0 -> parent <> daughter ->
     si n = Q / (4 * PI * (si r)^2 * v)
            * (daughter / (parent - daughter))
            * (exp (- si r / parent) - exp (- si r / daughter))).
Proof.
  intros Hm Hr Hpos.
  destruct (constructed_inv m Hm) as (qQ & qv & qp & d & -> & Hp & Hd).
  cbv zeta. cbn [self_Q self_v self_parent self_daughter magnitude].
  destruct Hd as [-> | (qd & -> & Hqd)].
  - unfold volume_density. run.
    eexists. split; [reflexivity|]. split.
    + intros _. autorewrite with si_simpl. simpl powerRZ. quotients.
    + intros H; contradiction H; reflexivity.
  - unfold volume_density. run.
    cbn [self_daughter is_None orb].
    destruct (eq_zero (PQuantity qd)) eqn:Ez.
    + run. eexists. split; [reflexivity|]. split.
      * intros _. autorewrite with si_simpl. simpl powerRZ. quotients.
      * intros _ H. apply eq_zero_si in Ez. contradiction.
    + run. eexists. split; [reflexivity|]. split.
      * intros [H|H]; [discriminate|].
        apply eq_zero_false_si in Ez. contradiction.
      * intros _ _ _. autorewrite with si_simpl. simpl powerRZ. quotients.
Qed.

(** C2.  For a constructed model and a projected distance that converts to
    the length [r], [column_density] returns Q/(2 pi r v) g, with g by the
    four cases on the lengthscales; x = r/parent, y = r/daughter and I the
    integral of K0.  scipy is present. *)
Theorem column_density_closed_form (m : Haser) (rho : Quantity)
    (eph : option Ephem) (r : Quantity) :
  constructed m ->
  rho_as_length sky_projection rho eph = ret r ->
  let Q := magnitude (self_Q m) in
  let v := magnitude (self_v m) in
  let parent := magnitude (self_parent m) in
  let daughter := magnitude (self_daughter m) in
  let x := ratio (si r) (self_parent m) in
  let y := ratio (si r) (self_daughter m) in
  let I := fun t => snd (iti0k0 t) in
  exists sigma,
    column_density true iti0k0 sky_projection m rho eph
      = ret (PQuantity sigma) /\
    (self_daughter m = PNone \/ daughter = 0 ->
     si sigma = Q / (2 * PI * si r * v) * (PI / 2 - I x)) /\
    (self_daughter m <> PNone -> daughter <> 0 ->
     self_parent m = PNone \/ parent = 0 ->
     si sigma = Q / (2 * PI * si r * v) * (PI / 2 - I y)) /\
    (self_daughter m <> PNone -> daughter <> 0 ->
     self_parent m <> PNone -> parent <> 0 -> parent < daughter ->
     si sigma = Q / (2 * PI * si r * v)
                * (parent / (daughter - parent) * (I x - I y))) /\
    (self_daughter m <> PNone -> daughter <> 0 ->
     self_parent m <> PNone -> parent <> 0 -> parent >= daughter ->
     si sigma = Q / (2 * PI * si r * v)
                * (daughter / (parent - daughter) * (I y - I x))).
Proof.
  intros Hm Hr.
  destruct (constructed_inv m Hm) as (qQ & qv & qp & d & -> & Hp & Hd).
  cbv zeta. cbn [self_Q self_v self_parent self_daughter magnitude ratio].
  unfold column_density. rewrite Hr, bind_ret_l.
  cbn [self_Q self_v self_parent self_daughter is_None orb].
  destruct Hd as [-> | (qd & -> & Hqd)].
  - run. eexists. split; [reflexivity|].
    split. { intros _. autorewrite with si_simpl. quotients. }
    split. { intros H; contradiction H; reflexivity. }
    split; intros H; contradiction H; reflexivity.
  - cbn [is_None orb magnitude].
    destruct (eq_zero (PQuantity qd)) eqn:Ezd.
    { apply eq_zero_si in Ezd. run. eexists. split; [reflexivity|].
      split. { intros _. autorewrite with si_simpl. quotients. }
      split; [|split]; intros _ H; contradiction. }
    apply eq_zero_false_si in Ezd.
    destruct (eq_zero (PQuantity qp)) eqn:Ezp.
    { apply eq_zero_si in Ezp. run. eexists. split; [reflexivity|].
      split. { intros [H|H]; [discriminate|contradiction]. }
      split. { intros _ _ _. autorewrite with si_simpl. quotients. }
      split; intros _ _ _ H; contradiction. }
    apply eq_zero_false_si in Ezp.
    run. destruct (q_ltb qp qd) eqn:Elt.
    + apply q_ltb_si in Elt. run. eexists. split; [reflexivity|].
      split. { intros [H|H]; [discriminate|contradiction]. }
      split. { intros _ _ [H|H]; [discriminate|contradiction]. }
      split. { intros _ _ _ _ _. autorewrite with si_simpl. quotients. }
      intros _ _ _ _ H. lra.
    + apply q_ltb_false_si in Elt. run. eexists. split; [reflexivity|].
      split. { intros [H|H]; [discriminate|contradiction]. }
      split. { intros _ _ [H|H]; [discriminate|contradiction]. }
      split. { intros _ _ _ _ H. lra. }
      intros _ _ _ _ _. autorewrite with si_simpl. quotients.
Qed.

(** [total_number] on a circular aperture or on a bare radius comes to the
    closed form at the converted radius. *)
Lemma total_number_circular_call (scipy_present : bool) (m : Haser)
    (aper : aper_arg) (eph : option Ephem) (radius rho : Quantity) :
  aper = Aper (CircularAperture radius) \/ aper = Radius radius ->
  rho_as_length sky_projection radius eph = ret rho ->
  total_number scipy_present iti0k0 k1 quad dblquad sky_projection
               gaussian_response m aper eph
  = total_number_circular scipy_present iti0k0 k1 m rho.
Proof.
  intros [-> | ->] Hrho; simpl.
  - rewrite Hrho, !bind_ret_l. reflexivity.
  - unfold total_number_radius. rewrite Hrho. apply bind_ret_l.
Qed.

(** C3.  For a constructed model and a circular aperture, or a bare radius,
    that converts to the length [rho], [total_number] returns the closed form
    of the three cases on the lengthscales; x = rho/parent, y = rho/daughter.
    scipy is present. *)
Theorem total_number_closed_form (m : Haser) (aper : aper_arg)
    (eph : option Ephem) (radius rho : Quantity) :
  constructed m ->
  aper = Aper (CircularAperture radius) \/ aper = Radius radius ->
  rho_as_length sky_projection radius eph = ret rho ->
  let Q := magnitude (self_Q m) in
  let v := magnitude (self_v m) in
  let parent := magnitude (self_parent m) in
  let daughter := magnitude (self_daughter m) in
  let x := ratio (si rho) (self_parent m) in
  let y := ratio (si rho) (self_daughter m) in
  let I := fun t => snd (iti0k0 t) in
  let K1 := k1 in
  exists N,
    total_number true iti0k0 k1 quad dblquad sky_projection gaussian_response
                 m aper eph = ret (PQuantity N) /\
    (self_daughter m = PNone \/ daughter = 0 ->
     si N = Q * parent / v * (1 + x * (K1 x + PI / 2 - I x))) /\
    (self_daughter m <> PNone -> daughter <> 0 ->
     self_parent m = PNone \/ parent = 0 ->
     si N = Q * daughter / v * (1 + y * (K1 y + PI / 2 - I y))) /\
    (self_daughter m <> PNone -> daughter <> 0 ->
     self_parent m <> PNone -> parent <> 0 ->
     si N = Q * si rho / v * (daughter / (parent - daughter))
            * (I y - I x + 1 / x - 1 / y + K1 y - K1 x)).
Proof.
  intros Hm Haper Hrho.
  pose proof (rho_as_length_length _ _ _ Hrho) as Hdim.
  rewrite (total_number_circular_call true m aper eph radius rho Haper Hrho).
  clear Haper Hrho radius aper.
  destruct (constructed_inv m Hm) as (qQ & qv & qp & d & -> & Hp & Hd).
  cbv zeta. cbn [self_Q self_v self_parent self_daughter magnitude ratio].
  unfold total_number_circular.
  cbn [self_Q self_v self_parent self_daughter is_None orb].
  destruct Hd as [-> | (qd & -> & Hqd)].
  - run. eexists. split; [reflexivity|].
    split. { intros _. autorewrite with si_simpl. quotients. }
    split. { intros H; contradiction H; reflexivity. }
    intros H; contradiction H; reflexivity.
  - cbn [is_None orb magnitude].
    destruct (eq_zero (PQuantity qd)) eqn:Ezd.
    { apply eq_zero_si in Ezd. run. eexists. split; [reflexivity|].
      split. { intros _. autorewrite with si_simpl. quotients. }
      split; intros _ H; contradiction. }
    apply eq_zero_false_si in Ezd.
    destruct (eq_zero (PQuantity qp)) eqn:Ezp.
    { apply eq_zero_si in Ezp. run. eexists. split; [reflexivity|].
      split. { intros [H|H]; [discriminate|contradiction]. }
      split. { intros _ _ _. autorewrite with si_simpl. quotients. }
      intros _ _ _ H; contradiction. }
    apply eq_zero_false_si in Ezp.
    run. eexists. split; [reflexivity|].
    split. { intros [H|H]; [discriminate|contradiction]. }
    split. { intros _ _ [H|H]; [discriminate|contradiction]. }
    intros _ _ _ _. autorewrite with si_simpl. simpl powerRZ. quotients.
Qed.

(** ** Annular apertures *)

(** C5.  [total_number] on an annular aperture is [total_number] on the
    circular aperture of the outer radius minus [total_number] on the
    circular aperture of the inner radius: the same warnings, and the same
    value or exception. *)
Theorem total_number_annulus (scipy_present : bool) (m : Haser)
    (r1 r2 : R) (u : Unit) (eph : option Ephem) :
  let total_number :=
    total_number scipy_present iti0k0 k1 quad dblquad sky_projection
                 gaussian_response m in
  total_number (Aper (AnnularAperture r1 r2 u)) eph
  = (N2 <- total_number (Aper (CircularAperture (mkQ r2 u))) eph ;;
     N1 <- total_number (Aper (CircularAperture (mkQ r1 u))) eph ;;
     py_sub N2 N1).
Proof.
  cbv zeta. unfold total_number, as_length, rho_as_length. simpl.
  destruct (length_conversion_cases u eph)
    as [([f u'] & Hc & Hdim) | (e & He)].
  - rewrite Hc, !bind_ret_l. simpl in Hdim. simpl fst. simpl snd.
    unfold total_number_radius.
    rewrite !rho_as_length_id by exact Hdim.
    rewrite !bind_ret_l. reflexivity.
  - rewrite He. reflexivity.
Qed.

(** ** Validation at construction *)

(** C9.  A production rate whose dimension is neither per time nor amount
    per time, or an outflow speed whose dimension is not length per time,
    makes [GasComa.__init__], and with it [Haser.__init__], raise: no model
    is returned, whatever the lengthscales. *)
Theorem construction_validates_dimensions (qQ qv : Quantity) :
  (dim (unit qQ) <> dim_pow dim_time (-1) /\
   dim (unit qQ) <> dim_div dim_amount dim_time) \/
  dim (unit qv) <> dim_div dim_length dim_time ->
  GasComa_init (PQuantity qQ) (PQuantity qv) = raise AssertionError /\
  forall parent daughter,
    Haser_init (PQuantity qQ) (PQuantity qv) parent daughter
    = raise AssertionError.
Proof.
  intros H.
  assert (E : has_unit rate_unit_ok (PQuantity qQ)
              && has_unit speed_unit_ok (PQuantity qv) = false).
  { simpl. unfold rate_unit_ok, speed_unit_ok.
    destruct (is_equivalent (unit qQ) (unit_pow u_s (-1))) eqn:E1;
    destruct (is_equivalent (unit qQ) (unit_div u_mol u_s)) eqn:E2;
    destruct (is_equivalent (unit qv) (unit_div u_m u_s)) eqn:E3;
      try reflexivity; exfalso;
      try apply is_equivalent_dim in E1; try apply is_equivalent_dim in E2;
      try apply is_equivalent_dim in E3;
      destruct H as [[H1 H2] | H3]; auto. }
  split.
  - rewrite GasComa_init_eq, E. reflexivity.
  - intros parent daughter. rewrite Haser_init_eq. unfold valid_args.
    rewrite E. reflexivity.
Qed.

(** C7, as amended.  A daughter lengthscale equal to the parent's is not
    rejected: with a production rate, a speed and a lengthscale of the right
    dimensions the construction returns a model, and [volume_density] at any
    length then returns a quantity. *)
Theorem equal_lengthscales_accepted (qQ qv qp r : Quantity) :
  rate_unit_ok (unit qQ) = true ->
  speed_unit_ok (unit qv) = true ->
  length_unit_ok (unit qp) = true ->
  length_unit_ok (unit r) = true ->
  exists m n,
    Haser_init (PQuantity qQ) (PQuantity qv) (PQuantity qp) (PQuantity qp)
    = ret m /\
    self_parent m = self_daughter m /\
    volume_density m (PQuantity r) = ret (PQuantity n).
Proof.
  intros HQ Hv Hp Hr.
  exists (mkHaser (PQuantity qQ) (PQuantity qv) (PQuantity qp) (PQuantity qp)).
  assert (Hinit : valid_args (PQuantity qQ) (PQuantity qv) (PQuantity qp)
                             (PQuantity qp) = true).
  { unfold valid_args. simpl. rewrite HQ, Hv, Hp. reflexivity. }
  rewrite Haser_init_eq, Hinit.
  apply is_equivalent_dim in Hp, Hr. simpl in Hp, Hr.
  unfold volume_density. run.
  cbn [self_daughter is_None orb].
  destruct (eq_zero (PQuantity qp)); run; eexists; repeat split; reflexivity.
Qed.

(** ** A parent lengthscale of zero *)

(** C10.  With a parent lengthscale present and exactly zero and a nonzero
    daughter lengthscale, the ratio [r / parent] is evaluated and returns,
    and [column_density] and [total_number] return the values of the
    parent-zero branch, in which only y = r/daughter occurs.  scipy is
    present. *)
Theorem zero_parent_depends_on_y_only (m : Haser) (rho : Quantity)
    (eph : option Ephem) (r : Quantity) :
  constructed m ->
  rho_as_length sky_projection rho eph = ret r ->
  magnitude (self_parent m) = 0 ->
  self_daughter m <> PNone -> magnitude (self_daughter m) <> 0 ->
  let Q := magnitude (self_Q m) in
  let v := magnitude (self_v m) in
  let daughter := magnitude (self_daughter m) in
  let y := si r / daughter in
  let I := fun t => snd (iti0k0 t) in
  let K1 := k1 in
  (exists x, py_div (PQuantity r) (self_parent m) = ret x) /\
  (exists sigma,
     column_density true iti0k0 sky_projection m rho eph
       = ret (PQuantity sigma) /\
     si sigma = Q / (2 * PI * si r * v) * (PI / 2 - I y)) /\
  (exists N,
     total_number true iti0k0 k1 quad dblquad sky_projection
                  gaussian_response m (Radius rho) eph
       = ret (PQuantity N) /\
     si N = Q * daughter / v * (1 + y * (K1 y + PI / 2 - I y))).
Proof.
  intros Hm Hr Hp0 Hd Hd0.
  pose proof (rho_as_length_length _ _ _ Hr) as Hdim.
  rewrite (total_number_circular_call true m (Radius rho) eph rho r
             (or_intror eq_refl) Hr).
  unfold column_density. rewrite Hr, bind_ret_l. clear Hr.
  destruct (constructed_inv m Hm) as (qQ & qv & qp & d & -> & Hp & Hdd).
  cbn [self_Q self_v self_parent self_daughter magnitude] in *.
  destruct Hdd as [-> | (qd & -> & Hqd)]; [contradiction Hd; reflexivity|].
  cbn [magnitude] in Hd0. cbv zeta. cbn [magnitude].
  apply eq_zero_si in Hp0. apply eq_zero_false_si in Hd0.
  split; [eexists; reflexivity|].
  unfold total_number_circular.
  cbn [self_Q self_v self_parent self_daughter is_None orb].
  rewrite Hp0, Hd0. split.
  - run. eexists. split; [reflexivity|].
    autorewrite with si_simpl. quotients.
  - run. eexists. split; [reflexivity|].
    autorewrite with si_simpl. quotients.
Qed.

(** ** Without scipy *)

(** C6, what the code does.  When scipy cannot be imported,
    [column_density], and [total_number] on a bare radius, of a constructed
    model raise [TypeError] after the warning of [_iK0] or [_K1], once or
    twice: the [None] these helpers return enters the arithmetic. *)
Theorem scipy_absent_raises (m : Haser) (rho : Quantity)
    (eph : option Ephem) (r : Quantity) :
  constructed m ->
  rho_as_length sky_projection rho eph = ret r ->
  (exists w,
     column_density false iti0k0 sky_projection m rho eph
       = (w, Raise TypeError) /\
     (w = [cannot_continue] \/ w = [cannot_continue; cannot_continue])) /\
  (exists w,
     total_number false iti0k0 k1 quad dblquad sky_projection
                  gaussian_response m (Radius rho) eph
       = (w, Raise TypeError) /\
     (w = [cannot_continue] \/ w = [cannot_continue; cannot_continue])).
Proof.
  intros Hm Hr.
  pose proof (rho_as_length_length _ _ _ Hr) as Hdim.
  rewrite (total_number_circular_call false m (Radius rho) eph rho r
             (or_intror eq_refl) Hr).
  unfold column_density. rewrite Hr, bind_ret_l. clear Hr.
  destruct (constructed_inv m Hm) as (qQ & qv & qp & d & -> & Hp & Hdd).
  unfold total_number_circular.
  cbn [self_Q self_v self_parent self_daughter is_None orb].
  destruct Hdd as [-> | (qd & -> & Hqd)].
  - split; run; eexists; (split; [reflexivity|left; reflexivity]).
  - cbn [is_None orb].
    destruct (eq_zero (PQuantity qd)).
    { split; run; eexists; (split; [reflexivity|left; reflexivity]). }
    destruct (eq_zero (PQuantity qp)).
    { split; run; eexists; (split; [reflexivity|left; reflexivity]). }
    split.
    + run. destruct (q_ltb qp qd); run; eexists;
        (split; [reflexivity|right; reflexivity]).
    + run. eexists. split; [reflexivity|right; reflexivity].
Qed.

(** ** Aperture kinds *)

(** C8, what the code does.  On an aperture that is none of the four kinds
    and converts to a length, [total_number] raises [TypeError], the outcome
    of calling [NotImplemented], and no warning; it returns no value. *)
Theorem other_aperture_raises_TypeError (scipy_present : bool) (m : Haser)
    (d : Quantity) (eph : option Ephem) (d' : Quantity) :
  rho_as_length sky_projection d eph = ret d' ->
  total_number scipy_present iti0k0 k1 quad dblquad sky_projection
               gaussian_response m (Aper (OtherAperture d)) eph
  = raise TypeError.
Proof.
  intros H. simpl. rewrite H, !bind_ret_l. reflexivity.
Qed.

(** The value in km of a quantity given in km. *)
Lemma to_km_value (a : R) :
  (k <- py_to (PQuantity (mkQ a u_km)) u_km ;; py_value k) = ret a.
Proof.
  simpl. unfold ret. do 2 f_equal. unfold si. simpl. field.
Qed.

(** C4, what the code does.  On a rectangle of widths [a] and [b] km the
    integrator pairs the angles from 0 to atan(a/b) with the radial limit
    a/2/cos th, and the angles from 0 to atan(b/a) with b/2/cos th. *)
Theorem rectangular_sectors_as_coded
    (column_density : Quantity -> option Ephem -> M pyval) (a b : R) :
  _integrate_column_density true quad dblquad gaussian_response
    column_density (RectangularAperture a b u_km)
  = (N1 <- dblquad (fun rho _ => polar_integrand column_density rho)
             0 (atan (a / b)) (fun _ => 0) (fun th => a / 2 / cos th) ;;
     N2 <- dblquad (fun rho _ => polar_integrand column_density rho)
             0 (atan (b / a)) (fun _ => 0) (fun th => b / 2 / cos th) ;;
     ret (PFloat (4 * (fst N1 + fst N2)))).
Proof.
  unfold _integrate_column_density. cbn [negb].
  rewrite !to_km_value, !bind_ret_l. reflexivity.
Qed.

End Claims.

(** ** The scenario of the spec, evaluated *)

Lemma haser_parent_only_constructed : constructed haser_parent_only.
Proof. apply constructed_intro. reflexivity. Qed.

Lemma haser_two_species_constructed : constructed haser_two_species.
Proof. apply constructed_intro. reflexivity. Qed.

Lemma haser_zero_parent_constructed : constructed haser_zero_parent.
Proof. apply constructed_intro. reflexivity. Qed.

Lemma r_ex_length : rho_as_length small_angle r_ex None = ret r_ex.
Proof. apply rho_as_length_id. reflexivity. Qed.

Lemma si_km (x : R) : si (mkQ x u_km) = x * 1000.
Proof. reflexivity. Qed.

Ltac km := cbn [magnitude haser_two_species haser_parent_only
                haser_zero_parent self_Q self_v self_parent self_daughter];
           unfold parent_ex, daughter_ex, r_ex; rewrite ?si_km; lra.

Lemma volume_density_closed_form_witness :
  exists n,
    volume_density haser_two_species (PQuantity r_ex) = ret (PQuantity n) /\
    si n = si Q_ex / (4 * PI * (si r_ex)^2 * si v_ex)
           * (si daughter_ex / (si parent_ex - si daughter_ex))
           * (exp (- si r_ex / si parent_ex)
              - exp (- si r_ex / si daughter_ex)).
Proof.
  destruct (volume_density_closed_form haser_two_species r_ex)
    as (n & Hn & _ & H).
  - exact haser_two_species_constructed.
  - reflexivity.
  - km.
  - exists n. split; [exact Hn|]. apply H.
    + discriminate.
    + km.
    + km.
Defined.

Lemma column_density_closed_form_witness :
  exists sigma,
    column_density true zero_iti0k0 small_angle haser_two_species r_ex None
      = ret (PQuantity sigma) /\
    si sigma = si Q_ex / (2 * PI * si r_ex * si v_ex)
               * (si parent_ex / (si daughter_ex - si parent_ex)
                  * (snd (zero_iti0k0 (si r_ex / si parent_ex))
                     - snd (zero_iti0k0 (si r_ex / si daughter_ex)))).
Proof.
  destruct (column_density_closed_form zero_iti0k0 small_angle
              haser_two_species r_ex None r_ex)
    as (sigma & Hs & _ & _ & H & _).
  - exact haser_two_species_constructed.
  - exact r_ex_length.
  - exists sigma. split; [exact Hs|]. apply H.
    + discriminate.
    + km.
    + discriminate.
    + km.
    + km.
Defined.

Lemma total_number_closed_form_witness :
  exists N,
    total_number true zero_iti0k0 zero_k1 zero_quad reporting_dblquad
                 small_angle flat_response haser_two_species
                 (Aper (CircularAperture r_ex)) None
      = ret (PQuantity N) /\
    si N = si Q_ex * si r_ex / si v_ex
           * (si daughter_ex / (si parent_ex - si daughter_ex))
           * (snd (zero_iti0k0 (si r_ex / si daughter_ex))
              - snd (zero_iti0k0 (si r_ex / si parent_ex))
              + 1 / (si r_ex / si parent_ex) - 1 / (si r_ex / si daughter_ex)
              + zero_k1 (si r_ex / si daughter_ex)
              - zero_k1 (si r_ex / si parent_ex)).
Proof.
  destruct (total_number_closed_form zero_iti0k0 zero_k1 zero_quad
              reporting_dblquad small_angle flat_response haser_two_species
              (Aper (CircularAperture r_ex)) None r_ex r_ex)
    as (N & HN & _ & _ & H).
  - exact haser_two_species_constructed.
  - left. reflexivity.
  - exact r_ex_length.
  - exists N. split; [exact HN|]. apply H.
    + discriminate.
    + km.
    + discriminate.
    + km.
Defined.

Lemma construction_validates_dimensions_witness :
  GasComa_init (PQuantity r_ex) (PQuantity v_ex) = raise AssertionError /\
  forall parent daughter,
    Haser_init (PQuantity r_ex) (PQuantity v_ex) parent daughter
    = raise AssertionError.
Proof.
  apply construction_validates_dimensions.
  left. split; intro H; vm_compute in H; discriminate H.
Defined.

(** C7, the claim refuted.  The construction with daughter equal to parent,
    both 2.4e4 km, returns a model, and [volume_density] at 1e4 km returns a
    quantity: nothing is rejected. *)
Lemma equal_lengthscales_not_rejected :
  Haser_init (PQuantity Q_ex) (PQuantity v_ex) (PQuantity parent_ex)
             (PQuantity parent_ex) = ret haser_equal /\
  exists n, volume_density haser_equal (PQuantity r_ex) = ret (PQuantity n).
Proof.
  split.
  - rewrite Haser_init_eq. reflexivity.
  - unfold volume_density, haser_equal. run.
    cbn [self_daughter is_None orb].
    assert (E : eq_zero (PQuantity parent_ex) = false).
    { apply eq_zero_false_si. unfold parent_ex. rewrite si_km. lra. }
    rewrite E. run. eexists. reflexivity.
Qed.

Lemma equal_lengthscales_accepted_witness :
  exists m n,
    Haser_init (PQuantity Q_ex) (PQuantity v_ex) (PQuantity parent_ex)
               (PQuantity parent_ex) = ret m /\
    self_parent m = self_daughter m /\
    volume_density m (PQuantity r_ex) = ret (PQuantity n).
Proof.
  apply (equal_lengthscales_accepted Q_ex v_ex parent_ex r_ex);
    reflexivity.
Defined.

Lemma zero_parent_depends_on_y_only_witness :
  (exists x,
     py_div (PQuantity r_ex) (self_parent haser_zero_parent) = ret x) /\
  (exists sigma,
     column_density true zero_iti0k0 small_angle haser_zero_parent r_ex None
       = ret (PQuantity sigma) /\
     si sigma = si Q_ex / (2 * PI * si r_ex * si v_ex)
                * (PI / 2 - snd (zero_iti0k0 (si r_ex / si daughter_ex)))) /\
  (exists N,
     total_number true zero_iti0k0 zero_k1 zero_quad reporting_dblquad
                  small_angle flat_response haser_zero_parent (Radius r_ex)
                  None
       = ret (PQuantity N) /\
     si N = si Q_ex * si daughter_ex / si v_ex
            * (1 + si r_ex / si daughter_ex
                   * (zero_k1 (si r_ex / si daughter_ex) + PI / 2
                      - snd (zero_iti0k0 (si r_ex / si daughter_ex))))).
Proof.
  apply (zero_parent_depends_on_y_only zero_iti0k0 zero_k1 zero_quad
           reporting_dblquad small_angle flat_response haser_zero_parent
           r_ex None r_ex).
  - exact haser_zero_parent_constructed.
  - exact r_ex_length.
  - cbn [magnitude haser_zero_parent self_parent]. rewrite si_km. lra.
  - discriminate.
  - km.
Defined.

Lemma scipy_absent_raises_witness :
  (exists w,
     column_density false zero_iti0k0 small_angle haser_parent_only r_ex
                    None
       = (w, Raise TypeError) /\
     (w = [cannot_continue] \/ w = [cannot_continue; cannot_continue])) /\
  (exists w,
     total_number false zero_iti0k0 zero_k1 zero_quad reporting_dblquad
                  small_angle flat_response haser_parent_only (Radius r_ex)
                  None
       = (w, Raise TypeError) /\
     (w = [cannot_continue] \/ w = [cannot_continue; cannot_continue])).
Proof.
  apply (scipy_absent_raises zero_iti0k0 zero_k1 zero_quad
           reporting_dblquad small_angle flat_response haser_parent_only
           r_ex None r_ex).
  - exact haser_parent_only_constructed.
  - exact r_ex_length.
Defined.

Lemma other_aperture_raises_TypeError_witness :
  total_number true zero_iti0k0 zero_k1 zero_quad reporting_dblquad
               small_angle flat_response haser_parent_only
               (Aper (OtherAperture r_ex)) None
  = raise TypeError.
Proof.
  apply (other_aperture_raises_TypeError zero_iti0k0 zero_k1 zero_quad
           reporting_dblquad small_angle flat_response true
           haser_parent_only r_ex None r_ex).
  exact r_ex_length.
Defined.

(** On the rectangle of 1 km by 2 km the sectors of the code and the sectors
    of the spec are told apart by the calls they make to [dblquad]. *)
Lemma rectangular_sectors_differ :
  let column_density :=
    column_density true zero_iti0k0 small_angle haser_parent_only in
  _integrate_column_density true zero_quad reporting_dblquad flat_response
    column_density (RectangularAperture 1 2 u_km)
  <> rectangular_as_specified reporting_dblquad column_density 1 2.
Proof.
  cbv zeta. unfold _integrate_column_density. cbn [negb].
  rewrite !to_km_value, !bind_ret_l.
  unfold rectangular_as_specified, reporting_dblquad.
  rewrite !bind_ret_l. cbn [fst]. rewrite cos_0.
  intros H. injection H as H.
  assert (Hlt : atan (1 / 2) < atan (2 / 1)) by (apply atan_increasing; lra).
  lra.
Qed.

(** * Further properties *)

Lemma bind_ext {A B} (m : M A) (f g : A -> M B) :
  (forall a, f a = g a) -> bind m f = bind m g.
Proof.
  intros H. destruct m as [w [a|e]]; simpl; [rewrite H|]; reflexivity.
Qed.

Lemma eq_zero_value (q : Quantity) :
  value q = 0 -> eq_zero (PQuantity q) = true.
Proof. intros H. apply eq_zero_si. apply value_0_si. exact H. Qed.

Lemma constructed_units (m : Haser) :
  constructed m ->
  exists qQ qv qp d,
    m = mkHaser (PQuantity qQ) (PQuantity qv) (PQuantity qp) d /\
    (dim (unit qQ) = dim_pow dim_time (-1) \/
     dim (unit qQ) = dim_div dim_amount dim_time) /\
    dim (unit qv) = dim_div dim_length dim_time /\
    dim (unit qp) = dim_length /\
    (d = PNone \/
     exists qd, d = PQuantity qd /\ dim (unit qd) = dim_length).
Proof.
  intros (Q & v & p & d & H). rewrite Haser_init_eq in H.
  destruct (valid_args Q v p d) eqn:E; [|discriminate].
  injection H as <-. unfold valid_args in E.
  rewrite !andb_true_iff in E. destruct E as [[[EQ Ev] Ep] Ed].
  destruct Q as [| |qQ]; try discriminate.
  destruct v as [| |qv]; try discriminate.
  destruct p as [| |qp]; try discriminate.
  exists qQ, qv, qp, d. split; [reflexivity|].
  simpl in EQ, Ev, Ep. unfold rate_unit_ok in EQ.
  apply orb_true_iff in EQ.
  split. { destruct EQ as [E|E]; apply is_equivalent_dim in E; auto. }
  split. { apply is_equivalent_dim in Ev. exact Ev. }
  split. { apply is_equivalent_dim in Ep. exact Ep. }
  destruct d as [| |qd]; try discriminate; [left; reflexivity|].
  right. exists qd. split; [reflexivity|].
  apply is_equivalent_dim in Ed. exact Ed.
Qed.

(** Decides an equation between the dimension of a result and a dimension
    built from those of the operands. *)
Ltac dim_goal :=
  unfold decompose, q_mul, q_div, q_pow, q_neg, q_scale, q_rdiv, q_number,
    q_exp, q_addsub;
  cbn [dim scale unit unit_div unit_mul unit_pow dimensionless_unscaled
       si_unit];
  repeat match goal with
         | H : dim (unit ?q) = _ |- _ => progress rewrite !H
         end;
  reflexivity.

(** ** Construction and the argument of [volume_density] *)

(** X1.  [Haser.__init__] returns a model exactly when Q is a quantity per
    time or in amount per time, v a quantity in length per time, the parent
    a length, and the daughter [None] or a length; the model then holds the
    four arguments unchanged.  Otherwise it raises [AssertionError]. *)
Theorem Haser_init_returns_iff (Q v parent daughter : pyval) (m : Haser) :
  (Haser_init Q v parent daughter = ret m <->
   m = mkHaser Q v parent daughter /\
   has_unit rate_unit_ok Q = true /\ has_unit speed_unit_ok v = true /\
   has_unit length_unit_ok parent = true /\
   (daughter = PNone \/ has_unit length_unit_ok daughter = true)) /\
  (Haser_init Q v parent daughter = ret (mkHaser Q v parent daughter) \/
   Haser_init Q v parent daughter = raise AssertionError).
Proof.
  rewrite Haser_init_eq. unfold valid_args. split.
  - split.
    + intros H.
      destruct (has_unit rate_unit_ok Q); [|discriminate].
      destruct (has_unit speed_unit_ok v); [|discriminate].
      destruct (has_unit length_unit_ok parent); [|discriminate].
      destruct daughter as [| |qd]; simpl in H |- *.
      * injection H as <-. auto 6.
      * discriminate.
      * destruct (length_unit_ok (unit qd)); [|discriminate].
        injection H as <-. auto 6.
    + intros (-> & -> & -> & -> & [-> | Hd]); [reflexivity|].
      rewrite Hd, orb_true_r. reflexivity.
  - destruct (_ && _ && _ && _); [left|right]; reflexivity.
Qed.

(** X2.  [volume_density] raises [AssertionError] on an argument that is
    not a quantity of length, whatever the model. *)
Theorem volume_density_rejects_non_length (m : Haser) (r : pyval) :
  has_unit length_unit_ok r = false ->
  volume_density m r = raise AssertionError.
Proof.
  intros H. unfold volume_density.
  destruct r as [| |q]; try reflexivity.
  simpl in H. unfold length_unit_ok in H. simpl. rewrite H. reflexivity.
Qed.

(** ** The sign and the slope of the volume density *)

(** X4.  With positive Q, v and parent lengthscale and no daughter, the
    volume density is positive and strictly decreasing in the distance. *)
Theorem volume_density_parent_only_decreasing (m : Haser)
    (r1 r2 : Quantity) :
  constructed m -> self_daughter m = PNone ->
  0 < magnitude (self_Q m) -> 0 < magnitude (self_v m) ->
  0 < magnitude (self_parent m) ->
  dim (unit r1) = dim_length -> dim (unit r2) = dim_length ->
  0 < si r1 -> si r1 < si r2 ->
  exists n1 n2,
    volume_density m (PQuantity r1) = ret (PQuantity n1) /\
    volume_density m (PQuantity r2) = ret (PQuantity n2) /\
    0 < si n2 /\ si n2 < si n1.
Proof.
  intros Hm Hd HQ Hv Hp0 Hr1 Hr2 Hpos Hlt.
  destruct (constructed_inv m Hm) as (qQ & qv & qp & d & -> & Hp & _).
  cbn [self_Q self_v self_parent self_daughter magnitude] in *. subst d.
  unfold volume_density. run.
  do 2 eexists. split; [reflexivity|]. split; [reflexivity|].
  autorewrite with si_simpl. simpl powerRZ. rewrite !Rmult_1_r.
  set (Q := si qQ) in *. set (v := si qv) in *. set (p := si qp) in *.
  set (a := si r1) in *. set (b := si r2) in *.
  assert (Hb : 0 < b) by lra.
  assert (Hk : 0 < Q / 4 / PI / v).
  { pose proof PI_RGT_0.
    repeat apply Rdiv_lt_0_compat; lra. }
  assert (Hsq : 0 < / (b * b) < / (a * a)).
  { split.
    - apply Rinv_0_lt_compat. nra.
    - assert (0 < a * a) by nra. assert (0 < b * b) by nra.
      apply Rinv_lt_contravar; [apply Rmult_lt_0_compat; assumption|nra]. }
  assert (He : 0 < exp (- b / p) < exp (- a / p)).
  { split; [apply exp_pos|]. apply exp_increasing.
    unfold Rdiv. apply Rmult_lt_compat_r; [apply Rinv_0_lt_compat|]; lra. }
  replace (Q / 4 / PI / (b * b) / v * exp (- b / p))
    with (Q / 4 / PI / v * (/ (b * b) * exp (- b / p)))
    by (unfold Rdiv; ring).
  replace (Q / 4 / PI / (a * a) / v * exp (- a / p))
    with (Q / 4 / PI / v * (/ (a * a) * exp (- a / p)))
    by (unfold Rdiv; ring).
  split.
  - apply Rmult_lt_0_compat; [exact Hk|]. apply Rmult_lt_0_compat; lra.
  - apply Rmult_lt_compat_l; [exact Hk|].
    apply Rmult_gt_0_lt_compat; lra.
Qed.

(** X5.  With positive Q, v and two positive, different lengthscales, the
    volume density at a positive distance is positive, whichever lengthscale
    is the larger. *)
Theorem volume_density_two_species_positive (m : Haser) (r : Quantity) :
  constructed m -> self_daughter m <> PNone ->
  0 < magnitude (self_Q m) -> 0 < magnitude (self_v m) ->
  0 < magnitude (self_parent m) -> 0 < magnitude (self_daughter m) ->
  magnitude (self_parent m) <> magnitude (self_daughter m) ->
  dim (unit r) = dim_length -> 0 < si r ->
  exists n,
    volume_density m (PQuantity r) = ret (PQuantity n) /\ 0 < si n.
Proof.
  intros Hm Hd HQ Hv Hp0 Hd0 Hne Hr Hpos.
  destruct (constructed_inv m Hm) as (qQ & qv & qp & d & -> & Hp & Hdd).
  cbn [self_Q self_v self_parent self_daughter magnitude] in *.
  destruct Hdd as [-> | (qd & -> & Hqd)]; [contradiction Hd; reflexivity|].
  cbn [magnitude] in *.
  assert (Ez : eq_zero (PQuantity qd) = false)
    by (apply eq_zero_false_si; lra).
  unfold volume_density. run. cbn [self_daughter is_None orb]. rewrite Ez.
  run. eexists. split; [reflexivity|].
  autorewrite with si_simpl. simpl powerRZ. rewrite !Rmult_1_r.
  set (Q := si qQ) in *. set (v := si qv) in *. set (p := si qp) in *.
  set (dd := si qd) in *. set (a := si r) in *.
  assert (Hk : 0 < Q / 4 / PI / (a * a) / v).
  { pose proof PI_RGT_0.
    repeat apply Rdiv_lt_0_compat; try lra. nra. }
  apply Rmult_lt_0_compat; [exact Hk|].
  assert (Hinv : forall s l,
            0 < s -> s < l -> exp (- a / s) < exp (- a / l)).
  { intros s l Hs Hl. apply exp_increasing.
    unfold Rdiv. rewrite !Ropp_mult_distr_l_reverse.
    apply Ropp_lt_contravar. apply Rmult_lt_compat_l; [exact Hpos|].
    apply Rinv_lt_contravar; [nra|exact Hl]. }
  destruct (Rtotal_order p dd) as [Hlt | [Heq | Hgt]]; [|contradiction|].
  - pose proof (Hinv p dd Hp0 Hlt) as He.
    replace (dd / (p - dd) * (exp (- a / p) - exp (- a / dd)))
      with (dd / (dd - p) * (exp (- a / dd) - exp (- a / p)))
      by (field; lra).
    apply Rmult_lt_0_compat; [apply Rdiv_lt_0_compat|]; lra.
  - pose proof (Hinv dd p Hd0 Hgt) as He.
    apply Rmult_lt_0_compat; [apply Rdiv_lt_0_compat|]; lra.
Qed.

Section Further.

Variable iti0k0 : R -> R * R.
Variable k1 : R -> R.
Variable quad : (R -> M R) -> R -> limit -> M (R * R).
Variable dblquad :
  (R -> R -> M R) -> R -> R -> (R -> R) -> (R -> R) -> M (R * R).
Variable sky_projection : R -> R -> R.
Variable gaussian_response : Quantity -> Quantity -> M pyval.

(** ** A daughter lengthscale of zero *)

Lemma column_density_zero_daughter (scipy_present : bool) (m : Haser)
    (qd : Quantity) :
  self_daughter m = PQuantity qd -> value qd = 0 ->
  column_density scipy_present iti0k0 sky_projection m
  = column_density scipy_present iti0k0 sky_projection (without_daughter m).
Proof.
  intros Hd H0. apply eq_zero_value in H0.
  apply functional_extensionality; intro rho.
  apply functional_extensionality; intro eph.
  unfold column_density, without_daughter.
  cbn [self_Q self_v self_parent self_daughter is_None orb].
  rewrite Hd, H0. cbn [is_None orb].
  apply bind_ext; intro r. apply bind_ext; intro x.
  unfold lift2. rewrite !bind_ret_l. cbn [py_div]. rewrite !bind_ret_l.
  reflexivity.
Qed.

(** X3.  A daughter lengthscale of value zero, in any unit, gives the same
    outcome as no daughter, in [volume_density], in [column_density] and in
    [total_number] on every aperture, with or without scipy: the ratio of
    the distance to the daughter lengthscale is evaluated and not used. *)
Theorem zero_daughter_is_no_daughter (scipy_present : bool) (m : Haser)
    (qd : Quantity) :
  self_daughter m = PQuantity qd -> value qd = 0 ->
  let m0 := without_daughter m in
  (forall r, volume_density m r = volume_density m0 r) /\
  (forall rho eph,
     column_density scipy_present iti0k0 sky_projection m rho eph
     = column_density scipy_present iti0k0 sky_projection m0 rho eph) /\
  (forall aper eph,
     total_number scipy_present iti0k0 k1 quad dblquad sky_projection
                  gaussian_response m aper eph
     = total_number scipy_present iti0k0 k1 quad dblquad sky_projection
                    gaussian_response m0 aper eph).
Proof.
  intros Hd H0. cbv zeta.
  pose proof (column_density_zero_daughter scipy_present m qd Hd H0) as Hcd.
  assert (Hz : eq_zero (PQuantity qd) = true)
    by (apply eq_zero_value; exact H0).
  assert (Hcirc : forall rho,
            total_number_circular scipy_present iti0k0 k1 m rho
            = total_number_circular scipy_present iti0k0 k1
                (without_daughter m) rho).
  { intro rho. unfold total_number_circular, without_daughter.
    cbn [self_Q self_v self_parent self_daughter is_None orb].
    rewrite Hd, Hz. cbn [is_None orb].
    apply bind_ext; intro x.
    unfold lift2 at 1. rewrite !bind_ret_l. cbn [py_div]. rewrite !bind_ret_l.
    reflexivity. }
  split; [|split].
  - intro r. unfold volume_density, without_daughter.
    cbn [self_Q self_v self_parent self_daughter is_None orb].
    rewrite Hd, Hz. reflexivity.
  - intros rho eph. rewrite Hcd. reflexivity.
  - assert (Hrad : forall q eph,
              total_number_radius scipy_present iti0k0 k1 sky_projection m
                                  q eph
              = total_number_radius scipy_present iti0k0 k1 sky_projection
                                    (without_daughter m) q eph).
    { intros q eph. unfold total_number_radius.
      apply bind_ext; intro rho. apply Hcirc. }
    intros aper eph. unfold total_number.
    rewrite Hcd. destruct aper as [a|q]; [|apply Hrad].
    apply bind_ext; intro a'.
    destruct a'; try reflexivity.
    + apply Hcirc.
    + rewrite !Hrad. reflexivity.
Qed.

(** ** Units of the results *)

(** X6.  With scipy present and a length as argument, the three queries of
    a constructed model return quantities: the volume density in number (or
    amount) per cubic length and in SI base units, the column density in
    number per square length, and the total number as a pure number (or an
    amount) in SI base units. *)
Theorem result_dimensions (m : Haser) (r : Quantity) :
  constructed m -> dim (unit r) = dim_length ->
  exists n sigma N,
    volume_density m (PQuantity r) = ret (PQuantity n) /\
    column_density true iti0k0 sky_projection m r None
      = ret (PQuantity sigma) /\
    total_number true iti0k0 k1 quad dblquad sky_projection
                 gaussian_response m (Radius r) None = ret (PQuantity N) /\
    dim (unit n) = dim_mul (dim_number m) (dim_pow dim_length (-3)) /\
    dim (unit sigma) = dim_mul (dim_number m) (dim_pow dim_length (-2)) /\
    dim (unit N) = dim_number m /\
    scale (unit n) = 1 /\ scale (unit N) = 1.
Proof.
  intros Hm Hr.
  rewrite (total_number_circular_call iti0k0 k1 quad dblquad sky_projection
             gaussian_response true m (Radius r) None r r
             (or_intror eq_refl) (rho_as_length_id sky_projection r None Hr)).
  unfold column_density.
  rewrite (rho_as_length_id sky_projection r None Hr), bind_ret_l.
  destruct (constructed_units m Hm)
    as (qQ & qv & qp & d & -> & HQ & Hv & Hp & Hd).
  unfold volume_density, total_number_circular, dim_number.
  cbn [self_Q self_v self_parent self_daughter is_None orb].
  destruct Hd as [-> | (qd & -> & Hqd)].
  - run. do 3 eexists. repeat split; try reflexivity;
      destruct HQ as [HQ|HQ]; dim_goal.
  - cbn [is_None orb].
    destruct (eq_zero (PQuantity qd)).
    { run. do 3 eexists. repeat split; try reflexivity;
        destruct HQ as [HQ|HQ]; dim_goal. }
    destruct (eq_zero (PQuantity qp)).
    { run. do 3 eexists. repeat split; try reflexivity;
        destruct HQ as [HQ|HQ]; dim_goal. }
    run. destruct (q_ltb qp qd); run; do 3 eexists;
      repeat split; try reflexivity; destruct HQ as [HQ|HQ]; dim_goal.
Qed.

(** ** The two lengthscales in the column density *)

(** X7.  With two nonzero, different lengthscales, a nonzero v and a
    positive distance, [column_density] depends on the lengthscales through
    the shorter and the longer only: it is
    Q/(2 pi r v) [short/(long - short)] [I(r/short) - I(r/long)], so that
    exchanging parent and daughter leaves it unchanged.  scipy is present. *)
Theorem column_density_symmetric_closed_form (m : Haser) (rho : Quantity)
    (eph : option Ephem) (r : Quantity) :
  constructed m ->
  rho_as_length sky_projection rho eph = ret r ->
  0 < si r -> magnitude (self_v m) <> 0 ->
  self_daughter m <> PNone ->
  magnitude (self_parent m) <> 0 -> magnitude (self_daughter m) <> 0 ->
  magnitude (self_parent m) <> magnitude (self_daughter m) ->
  let Q := magnitude (self_Q m) in
  let v := magnitude (self_v m) in
  let short :=
    Rmin (magnitude (self_parent m)) (magnitude (self_daughter m)) in
  let long :=
    Rmax (magnitude (self_parent m)) (magnitude (self_daughter m)) in
  let I := fun t => snd (iti0k0 t) in
  exists sigma,
    column_density true iti0k0 sky_projection m rho eph
      = ret (PQuantity sigma) /\
    si sigma = Q / (2 * PI * si r * v)
               * (short / (long - short)
                  * (I (si r / short) - I (si r / long))).
Proof.
  intros Hm Hr _ _ Hd Hp0 Hd0 Hne.
  destruct (constructed_inv m Hm) as (qQ & qv & qp & d & -> & Hp & Hdd).
  cbn [self_Q self_v self_parent self_daughter magnitude] in *.
  destruct Hdd as [-> | (qd & -> & Hqd)]; [contradiction Hd; reflexivity|].
  cbn [magnitude] in *. cbv zeta.
  apply eq_zero_false_si in Hp0. apply eq_zero_false_si in Hd0.
  unfold column_density. rewrite Hr, bind_ret_l.
  cbn [self_Q self_v self_parent self_daughter is_None orb].
  rewrite Hp0, Hd0. run.
  destruct (q_ltb qp qd) eqn:Elt.
  - apply q_ltb_si in Elt. run. eexists. split; [reflexivity|].
    rewrite Rmin_left, Rmax_right by lra.
    autorewrite with si_simpl. quotients.
  - apply q_ltb_false_si in Elt. run. eexists. split; [reflexivity|].
    rewrite Rmin_right, Rmax_left by lra.
    autorewrite with si_simpl. quotients.
Qed.

(** ** Apertures *)

(** X8.  [total_number] on a bare radius and on the circular aperture of
    that radius have the same outcome, whatever the radius, the ephemeris
    and the presence of scipy. *)
Theorem bare_radius_is_circular_aperture (scipy_present : bool) (m : Haser)
    (q : Quantity) (eph : option Ephem) :
  total_number scipy_present iti0k0 k1 quad dblquad sky_projection
               gaussian_response m (Radius q) eph
  = total_number scipy_present iti0k0 k1 quad dblquad sky_projection
                 gaussian_response m (Aper (CircularAperture q)) eph.
Proof.
  unfold total_number, total_number_radius, as_length.
  rewrite bind_assoc. apply bind_ext; intro rho.
  rewrite bind_ret_l. reflexivity.
Qed.

(** X9.  Without scipy, [total_number] on a rectangular or a Gaussian
    aperture that converts to a length returns [None] after the one warning
    of the integrator, and raises nothing, whatever the model. *)
Theorem total_number_degrades_without_scipy (m : Haser)
    (aper aper' : Aperture) (eph : option Ephem) :
  (exists a b u, aper = RectangularAperture a b u) \/
  (exists sigma, aper = GaussianAperture sigma) ->
  as_length sky_projection aper eph = ret aper' ->
  total_number false iti0k0 k1 quad dblquad sky_projection
               gaussian_response m (Aper aper) eph
  = ([cannot_integrate], Ok PNone).
Proof.
  intros Hkind Hconv. unfold total_number. rewrite Hconv, bind_ret_l.
  destruct Hkind as [(a & b & u & ->) | (sigma & ->)]; simpl in Hconv.
  - apply bind_ret_inv in Hconv. destruct Hconv as (c & _ & Hc).
    injection Hc as <-. reflexivity.
  - apply bind_ret_inv in Hconv. destruct Hconv as (c & _ & Hc).
    injection Hc as <-. reflexivity.
Qed.

(** ** The integrator and the unit of the aperture *)

Lemma to_km (q : Quantity) :
  dim (unit q) = dim_length ->
  (k <- py_to (PQuantity q) u_km ;; py_value k) = ret (si q / 1000).
Proof.
  intros H. unfold py_to.
  assert (E : is_equivalent (unit q) u_km = true)
    by (apply is_equivalent_dim; rewrite H; reflexivity).
  rewrite E, bind_ret_l. reflexivity.
Qed.

Lemma to_km_fails (q : Quantity) :
  dim (unit q) <> dim_length ->
  (k <- py_to (PQuantity q) u_km ;; py_value k) = raise UnitConversionError.
Proof.
  intros H. unfold py_to.
  destruct (is_equivalent (unit q) u_km) eqn:E; [|reflexivity].
  apply is_equivalent_dim in E. contradiction.
Qed.

(** X10.  The integrator does not depend on the unit of length the aperture
    is given in: circular, annular and rectangular apertures of the same
    size in two units of length have the same outcome, for every model's
    column density, with or without scipy. *)
Theorem integration_independent_of_unit (scipy_present : bool)
    (column_density : Quantity -> option Ephem -> M pyval)
    (a b a' b' : R) (u u' : Unit) :
  dim u = dim_length -> dim u' = dim_length ->
  a * scale u = a' * scale u' -> b * scale u = b' * scale u' ->
  let integrate :=
    _integrate_column_density scipy_present quad dblquad gaussian_response
                              column_density in
  integrate (CircularAperture (mkQ a u))
    = integrate (CircularAperture (mkQ a' u')) /\
  integrate (AnnularAperture a b u) = integrate (AnnularAperture a' b' u') /\
  integrate (RectangularAperture a b u)
    = integrate (RectangularAperture a' b' u').
Proof.
  intros Hu Hu' Ha Hb. cbv zeta. unfold _integrate_column_density.
  destruct scipy_present; cbn [negb]; [|auto].
  assert (Hka : forall x x' : R, x * scale u = x' * scale u' ->
            (k <- py_to (PQuantity (mkQ x u)) u_km ;; py_value k)
            = (k <- py_to (PQuantity (mkQ x' u')) u_km ;; py_value k)).
  { intros x x' Hx. rewrite !to_km by assumption. unfold si. simpl.
    rewrite Hx. reflexivity. }
  assert (Hto : forall x x' : R, x * scale u = x' * scale u' ->
            py_to (PQuantity (mkQ x u)) u_km
            = py_to (PQuantity (mkQ x' u')) u_km).
  { intros x x' Hx. unfold py_to, is_equivalent, si. simpl.
    rewrite Hu, Hu', Hx. reflexivity. }
  repeat split.
  - rewrite (Hto a a' Ha). reflexivity.
  - rewrite (Hka a a' Ha), (Hka b b' Hb). reflexivity.
  - rewrite (Hka a a' Ha), (Hka b b' Hb). reflexivity.
Qed.

(** X11.  With scipy present, the integrator raises [UnitConversionError]
    on a circular, annular or rectangular aperture that is not in a unit of
    length, an angular one for instance, before any integration. *)
Theorem integration_needs_lengths
    (column_density : Quantity -> option Ephem -> M pyval)
    (a b : R) (u : Unit) :
  dim u <> dim_length ->
  let integrate :=
    _integrate_column_density true quad dblquad gaussian_response
                              column_density in
  integrate (CircularAperture (mkQ a u)) = raise UnitConversionError /\
  integrate (AnnularAperture a b u) = raise UnitConversionError /\
  integrate (RectangularAperture a b u) = raise UnitConversionError.
Proof.
  intros Hu. cbv zeta. unfold _integrate_column_density. cbn [negb].
  assert (E : is_equivalent u u_km = false).
  { destruct (is_equivalent u u_km) eqn:E; [|reflexivity].
    apply is_equivalent_dim in E. contradiction. }
  repeat split.
  - unfold py_to. cbn [unit]. rewrite E. reflexivity.
  - rewrite (to_km_fails (mkQ a u)) by exact Hu. reflexivity.
  - rewrite (to_km_fails (mkQ a u)) by exact Hu. reflexivity.
Qed.

(** X12.  Exchanging the two sides of a rectangular aperture does not change
    the integral: when the two calls to [dblquad] return, the integrator
    returns four times the sum of their values on the rectangle and on the
    rectangle with its sides exchanged.  scipy is present. *)
Theorem rectangle_sides_exchange
    (column_density : Quantity -> option Ephem -> M pyval)
    (a b : R) (u : Unit) (N1 N2 : R * R) :
  dim u = dim_length ->
  let a_km := a * scale u / 1000 in
  let b_km := b * scale u / 1000 in
  let f := fun rho (_ : R) => polar_integrand column_density rho in
  dblquad f 0 (atan (a_km / b_km)) (fun _ => 0) (fun th => a_km / 2 / cos th)
    = ret N1 ->
  dblquad f 0 (atan (b_km / a_km)) (fun _ => 0) (fun th => b_km / 2 / cos th)
    = ret N2 ->
  let integrate :=
    _integrate_column_density true quad dblquad gaussian_response
                              column_density in
  integrate (RectangularAperture a b u)
    = ret (PFloat (4 * (fst N1 + fst N2))) /\
  integrate (RectangularAperture b a u)
    = ret (PFloat (4 * (fst N1 + fst N2))).
Proof.
  intros Hu a_km b_km f H1 H2. cbv zeta.
  unfold _integrate_column_density. cbn [negb].
  rewrite !to_km by exact Hu. unfold si. cbn [value unit].
  rewrite !bind_ret_l. fold a_km b_km.
  change (fun (rho : R) (_ : R) =>
            s <- column_density (mkQ rho u_km) None ;;
            sv <- py_value s ;; ret (rho * sv)) with f.
  rewrite H1, H2, !bind_ret_l. split; [reflexivity|].
  unfold ret. do 3 f_equal. ring.
Qed.

(** ** Annuli *)

(** The closed form returns a quantity whose dimension does not depend on
    the radius. *)
Lemma total_number_circular_returns (m : Haser) :
  constructed m ->
  exists d, forall rho,
    dim (unit rho) = dim_length ->
    exists N,
      total_number_circular true iti0k0 k1 m rho = ret (PQuantity N) /\
      dim (unit N) = d.
Proof.
  intros Hm.
  destruct (constructed_inv m Hm) as (qQ & qv & qp & d & -> & Hp & Hd).
  unfold total_number_circular.
  cbn [self_Q self_v self_parent self_daughter is_None orb].
  destruct Hd as [-> | (qd & -> & Hqd)].
  - eexists. intros rho Hrho. run. eexists. split; [reflexivity|].
    dim_goal.
  - cbn [is_None orb].
    destruct (eq_zero (PQuantity qd)).
    { eexists. intros rho Hrho. run. eexists. split; [reflexivity|].
      dim_goal. }
    destruct (eq_zero (PQuantity qp)).
    { eexists. intros rho Hrho. run. eexists. split; [reflexivity|].
      dim_goal. }
    eexists. intros rho Hrho. run. eexists. split; [reflexivity|].
    dim_goal.
Qed.

Lemma annulus_value (m : Haser) (a b : R) (u : Unit) (eph : option Ephem)
    (Na Nb : Quantity) :
  dim u = dim_length ->
  total_number_circular true iti0k0 k1 m (mkQ a u) = ret (PQuantity Na) ->
  total_number_circular true iti0k0 k1 m (mkQ b u) = ret (PQuantity Nb) ->
  dim (unit Na) = dim (unit Nb) ->
  exists N,
    total_number true iti0k0 k1 quad dblquad sky_projection
                 gaussian_response m (Aper (AnnularAperture a b u)) eph
      = ret (PQuantity N) /\
    si N = si Nb - si Na.
Proof.
  intros Hu Ha Hb Hdim.
  assert (Hconv : length_conversion sky_projection u eph
                  = ret (fun x => x, u)).
  { unfold length_conversion.
    assert (E1 : is_equivalent u u_rad = false)
      by (unfold is_equivalent; rewrite Hu; reflexivity).
    assert (E2 : is_equivalent u u_m = true)
      by (unfold is_equivalent; rewrite Hu; reflexivity).
    rewrite E1, E2. reflexivity. }
  unfold total_number, as_length. rewrite Hconv, !bind_ret_l.
  cbn [fst snd]. unfold total_number_radius.
  rewrite !rho_as_length_id by exact Hu.
  unfold lift2. rewrite !bind_ret_l, Ha, Hb, !bind_ret_l.
  unfold py_sub, py_addsub.
  assert (E : is_equivalent (unit Nb) (unit Na) = true)
    by (apply is_equivalent_dim; symmetry; exact Hdim).
  rewrite E. eexists. split; [reflexivity|]. apply si_q_sub.
Qed.

(** X13.  For a constructed model, with scipy present, the total numbers on
    annuli in a unit of length add up: the annulus from a to b and the
    annulus from b to c together hold what the annulus from a to c holds,
    and the annulus from a to a holds nothing.  The radii are positive and
    the closed form divides by no zero: v and the parent lengthscale are
    not zero, and the daughter lengthscale is absent, or neither zero nor
    the parent's. *)
Theorem annuli_add_up (m : Haser) (a b c : R) (u : Unit)
    (eph : option Ephem) :
  constructed m -> dim u = dim_length ->
  0 < a -> 0 < b -> 0 < c ->
  magnitude (self_v m) <> 0 -> magnitude (self_parent m) <> 0 ->
  self_daughter m = PNone \/
  (magnitude (self_daughter m) <> 0 /\
   magnitude (self_daughter m) <> magnitude (self_parent m)) ->
  let total_number :=
    total_number true iti0k0 k1 quad dblquad sky_projection
                 gaussian_response m in
  exists Nab Nbc Nac Naa,
    total_number (Aper (AnnularAperture a b u)) eph = ret (PQuantity Nab) /\
    total_number (Aper (AnnularAperture b c u)) eph = ret (PQuantity Nbc) /\
    total_number (Aper (AnnularAperture a c u)) eph = ret (PQuantity Nac) /\
    total_number (Aper (AnnularAperture a a u)) eph = ret (PQuantity Naa) /\
    si Nab + si Nbc = si Nac /\ si Naa = 0.
Proof.
  intros Hm Hu _ _ _ _ _ _. cbv zeta.
  destruct (total_number_circular_returns m Hm) as (d & Hret).
  destruct (Hret (mkQ a u) Hu) as (Na & Ha & Hda).
  destruct (Hret (mkQ b u) Hu) as (Nb & Hb & Hdb).
  destruct (Hret (mkQ c u) Hu) as (Nc & Hc & Hdc).
  destruct (annulus_value m a b u eph Na Nb Hu Ha Hb) as (Nab & Hab & Sab);
    [congruence|].
  destruct (annulus_value m b c u eph Nb Nc Hu Hb Hc) as (Nbc & Hbc & Sbc);
    [congruence|].
  destruct (annulus_value m a c u eph Na Nc Hu Ha Hc) as (Nac & Hac & Sac);
    [congruence|].
  destruct (annulus_value m a a u eph Na Na Hu Ha Ha) as (Naa & Haa & Saa);
    [congruence|].
  exists Nab, Nbc, Nac, Naa. repeat split; try assumption; lra.
Qed.

End Further.

(** ** The photodissociation lookups *)

Module PhotoFacts.
Import Photo.

Lemma upper_ascii_idem (c : ascii) :
  upper_ascii (upper_ascii c) = upper_ascii c.
Proof.
  destruct c as [[] [] [] [] [] [] [] []]; reflexivity.
Qed.

Lemma upper_idem (s : string) : upper (upper s) = upper s.
Proof.
  induction s as [|c s IH]; simpl; [reflexivity|].
  rewrite upper_ascii_idem, IH. reflexivity.
Qed.

(** X14.  The lookups ignore the case of the species and of the source: a
    call has the same outcome, citation included, as the call on the
    upper-case strings. *)
Theorem lookups_ignore_case (species : string) (source : option string) :
  photo_lengthscale species source
  = photo_lengthscale (upper species) (option_map upper source) /\
  photo_timescale (Some species) source
  = photo_timescale (Some (upper species)) (option_map upper source).
Proof.
  unfold photo_lengthscale, photo_timescale.
  rewrite !upper_idem.
  destruct source as [s|]; simpl option_map; [|split; reflexivity].
  split.
  - destruct (assert (dict_in (upper species) lengthscale_data))
      as [c [e|[]]]; [reflexivity|].
    destruct (index lengthscale_data (upper species)) as [c' [e|gas]];
      [reflexivity|].
    simpl. rewrite !upper_idem. reflexivity.
  - destruct (assert (dict_in (upper species) timescale_data))
      as [c [e|[]]]; [reflexivity|].
    destruct (index timescale_data (upper species)) as [c' [e|gas]];
      [reflexivity|].
    simpl. rewrite !upper_idem. reflexivity.
Qed.

Ltac key_cases k :=
  repeat match goal with
         | |- context [String.eqb k ?lit] =>
             let E := fresh "E" in
             destruct (String.eqb k lit) eqn:E;
             [apply String.eqb_eq in E|apply String.eqb_neq in E]
         end.

Ltac source_cases source :=
  destruct source as [?s|]; cbn [accepts bind ret assert dict_get];
  [ generalize (upper s); intro;
    repeat match goal with
           | |- context [String.eqb ?ks ?lit] =>
               destruct (String.eqb ks lit) eqn:?
           end
  | ].

Ltac outcome_cases :=
  first [ left; do 3 eexists; repeat split; cbn [accepts];
          first [eassumption | reflexivity]
        | right; split; [right; eexists; split; [reflexivity|];
                         cbn [accepts]; eassumption
                        | reflexivity] ].

(** X15.  [photo_timescale] on a species either returns the timescale the
    table has for it and registers its bibcode, once, or raises
    [AssertionError] and registers nothing.  It returns exactly when the
    species is in the table, up to case, and the source is absent or is the
    default source of the species, up to case.  [KeyError] never arises. *)
Theorem photo_timescale_outcome (species : string)
    (source : option string) :
  let call := photo_timescale (Some species) source in
  let default := dict_get (upper species) timescale_default_sources in
  (exists key tau bibcode,
     default = Some key /\ accepts source key = true /\
     dict_get (upper species) timescale_data
       = Some [(key, (tau, bibcode))] /\
     call = ([("activity.gas.photo_timescale"%string, bibcode)],
             inr (Timescale tau))) \/
  ((default = None \/
    exists key, default = Some key /\ accepts source key = false) /\
   call = raise AssertionError).
Proof.
  cbv zeta. unfold photo_timescale.
  generalize (upper species) as k. intro k.
  unfold timescale_default_sources, timescale_data, dict_in, index.
  cbn [dict_get]. key_cases k.
  1-5: source_cases source; outcome_cases.
  right. split; [left; reflexivity|reflexivity].
Qed.

(** X16.  [photo_lengthscale] either returns the lengthscale the table has
    for the species and registers its bibcode, once, or raises
    [AssertionError] and registers nothing; it returns exactly when the
    species is in the table, up to case, and the source is absent or is the
    default source of the species, up to case. *)
Theorem photo_lengthscale_outcome (species : string)
    (source : option string) :
  let call := photo_lengthscale species source in
  let default := dict_get (upper species) lengthscale_default_sources in
  (exists key gamma bibcode,
     default = Some key /\ accepts source key = true /\
     dict_get (upper species) lengthscale_data
       = Some [(key, (gamma, bibcode))] /\
     call = ([("activity.gas.photo_lengthscale"%string, bibcode)],
             inr gamma)) \/
  ((default = None \/
    exists key, default = Some key /\ accepts source key = false) /\
   call = raise AssertionError).
Proof.
  cbv zeta. unfold photo_lengthscale.
  generalize (upper species) as k. intro k.
  unfold lengthscale_default_sources, lengthscale_data, dict_in, index.
  cbn [dict_get]. key_cases k.
  1-2: source_cases source; outcome_cases.
  right. split; [left; reflexivity|reflexivity].
Qed.

Lemma photo_lengthscale_returns (species : string) (source : option string)
    c gamma :
  photo_lengthscale species source = (c, inr gamma) ->
  accepts source "CS93" = true /\
  c = [("activity.gas.photo_lengthscale",
        "1993Icar..105..235C")]%string /\
  ((upper species = "H2O"%string /\ gamma = mkQ 24000 u_km) \/
   (upper species = "OH"%string /\ gamma = mkQ 160000 u_km)).
Proof.
  unfold photo_lengthscale.
  generalize (upper species) as k. intro k.
  unfold lengthscale_default_sources, lengthscale_data, dict_in, index.
  cbn [dict_get]. key_cases k.
  1-2: source_cases source; cbn; intros H; try discriminate;
    injection H as <- <-; repeat split; cbn [accepts];
    try eassumption; auto.
  cbn. discriminate.
Qed.

(** X18.  Where a lengthscale is available a timescale is too: a call of
    [photo_lengthscale] that returns is matched by the call of
    [photo_timescale] on the same species and source, which returns one
    positive time and registers the same bibcode. *)
Theorem lengthscale_has_timescale (species : string)
    (source : option string) c gamma :
  photo_lengthscale species source = (c, inr gamma) ->
  exists tau bibcode,
    c = [("activity.gas.photo_lengthscale", bibcode)]%string /\
    photo_timescale (Some species) source
    = ([("activity.gas.photo_timescale", bibcode)]%string,
       inr (Timescale (Scalar tau))) /\
    dim (unit tau) = dim_time /\ 0 < si tau.
Proof.
  intros H.
  destruct (photo_lengthscale_returns _ _ _ _ H)
    as (Hacc & -> & [[Hk _] | [Hk _]]);
    unfold photo_timescale; rewrite Hk;
    (destruct source as [s|]; cbn [accepts] in Hacc;
     [apply String.eqb_eq in Hacc;
      cbn [bind ret assert dict_in index dict_get timescale_data
           String.eqb Ascii.eqb Bool.eqb];
      rewrite Hacc|]); cbn;
    do 2 eexists; (split; [reflexivity|]); (split; [reflexivity|]);
    (split; [reflexivity|unfold si; simpl; lra]).
Qed.

End PhotoFacts.

(** X17.  A lengthscale that [photo_lengthscale] returns is a positive
    length, and [Haser.__init__] takes it as the parent lengthscale, alone
    or with a daughter, and as the daughter lengthscale. *)
Theorem photo_lengthscale_fits_Haser (species : string)
    (source : option string) (c : list (string * string))
    (gamma : Quantity) (Q v other : pyval) :
  Photo.photo_lengthscale species source = (c, inr gamma) ->
  has_unit rate_unit_ok Q = true -> has_unit speed_unit_ok v = true ->
  has_unit length_unit_ok other = true ->
  dim (unit gamma) = dim_length /\ 0 < si gamma /\
  Haser_init Q v (PQuantity gamma) PNone
    = ret (mkHaser Q v (PQuantity gamma) PNone) /\
  Haser_init Q v (PQuantity gamma) other
    = ret (mkHaser Q v (PQuantity gamma) other) /\
  Haser_init Q v other (PQuantity gamma)
    = ret (mkHaser Q v other (PQuantity gamma)).
Proof.
  intros H HQ Hv Ho.
  destruct (PhotoFacts.photo_lengthscale_returns _ _ _ _ H)
    as (_ & _ & [[_ ->] | [_ ->]]);
    rewrite !Haser_init_eq; unfold valid_args;
    rewrite HQ, Hv, Ho, ?orb_true_r;
    (split; [reflexivity|]); (split; [unfold si; simpl; lra|]);
    repeat split; reflexivity.
Qed.

(** ** The further properties on the scenario of the spec *)

Lemma Q_ex_pos : 0 < si Q_ex.
Proof.
  apply Rmult_lt_0_compat; [apply pow_lt; lra|apply scale_pos].
Qed.

Lemma v_ex_pos : 0 < si v_ex.
Proof.
  apply Rmult_lt_0_compat; [apply Rlt_0_1|apply scale_pos].
Qed.

Lemma haser_zero_daughter_constructed : constructed haser_zero_daughter.
Proof. apply constructed_intro. reflexivity. Qed.

Lemma volume_density_rejects_non_length_witness :
  volume_density haser_parent_only PNone = raise AssertionError.
Proof.
  apply volume_density_rejects_non_length. reflexivity.
Defined.

Lemma zero_daughter_is_no_daughter_witness :
  let m0 := without_daughter haser_zero_daughter in
  (forall r, volume_density haser_zero_daughter r = volume_density m0 r) /\
  (forall rho eph,
     column_density true zero_iti0k0 small_angle haser_zero_daughter rho eph
     = column_density true zero_iti0k0 small_angle m0 rho eph) /\
  (forall aper eph,
     total_number true zero_iti0k0 zero_k1 zero_quad reporting_dblquad
                  small_angle flat_response haser_zero_daughter aper eph
     = total_number true zero_iti0k0 zero_k1 zero_quad reporting_dblquad
                    small_angle flat_response m0 aper eph).
Proof.
  apply (zero_daughter_is_no_daughter zero_iti0k0 zero_k1 zero_quad
           reporting_dblquad small_angle flat_response true
           haser_zero_daughter (mkQ 0 u_km)); reflexivity.
Defined.

Lemma volume_density_parent_only_decreasing_witness :
  exists n1 n2,
    volume_density haser_parent_only (PQuantity r_ex) = ret (PQuantity n1) /\
    volume_density haser_parent_only (PQuantity (mkQ 20000 u_km))
      = ret (PQuantity n2) /\
    0 < si n2 /\ si n2 < si n1.
Proof.
  apply (volume_density_parent_only_decreasing haser_parent_only r_ex
           (mkQ 20000 u_km)).
  - exact haser_parent_only_constructed.
  - reflexivity.
  - exact Q_ex_pos.
  - exact v_ex_pos.
  - km.
  - reflexivity.
  - reflexivity.
  - km.
  - km.
Defined.

Lemma volume_density_two_species_positive_witness :
  exists n,
    volume_density haser_two_species (PQuantity r_ex) = ret (PQuantity n) /\
    0 < si n.
Proof.
  apply (volume_density_two_species_positive haser_two_species r_ex).
  - exact haser_two_species_constructed.
  - discriminate.
  - exact Q_ex_pos.
  - exact v_ex_pos.
  - km.
  - km.
  - km.
  - reflexivity.
  - km.
Defined.

Lemma result_dimensions_witness :
  exists n sigma N,
    volume_density haser_two_species (PQuantity r_ex) = ret (PQuantity n) /\
    column_density true zero_iti0k0 small_angle haser_two_species r_ex None
      = ret (PQuantity sigma) /\
    total_number true zero_iti0k0 zero_k1 zero_quad reporting_dblquad
                 small_angle flat_response haser_two_species (Radius r_ex)
                 None = ret (PQuantity N) /\
    dim (unit n) = dim_mul (dim_number haser_two_species)
                           (dim_pow dim_length (-3)) /\
    dim (unit sigma) = dim_mul (dim_number haser_two_species)
                               (dim_pow dim_length (-2)) /\
    dim (unit N) = dim_number haser_two_species /\
    scale (unit n) = 1 /\ scale (unit N) = 1.
Proof.
  apply (result_dimensions zero_iti0k0 zero_k1 zero_quad reporting_dblquad
           small_angle flat_response haser_two_species r_ex).
  - exact haser_two_species_constructed.
  - reflexivity.
Defined.

Lemma column_density_symmetric_closed_form_witness :
  exists sigma,
    column_density true zero_iti0k0 small_angle haser_two_species r_ex None
      = ret (PQuantity sigma) /\
    si sigma = si Q_ex / (2 * PI * si r_ex * si v_ex)
               * (Rmin (si parent_ex) (si daughter_ex)
                  / (Rmax (si parent_ex) (si daughter_ex)
                     - Rmin (si parent_ex) (si daughter_ex))
                  * (snd (zero_iti0k0
                            (si r_ex / Rmin (si parent_ex) (si daughter_ex)))
                     - snd (zero_iti0k0
                              (si r_ex
                               / Rmax (si parent_ex) (si daughter_ex))))).
Proof.
  apply (column_density_symmetric_closed_form zero_iti0k0 small_angle
           haser_two_species r_ex None r_ex).
  - exact haser_two_species_constructed.
  - exact r_ex_length.
  - km.
  - pose proof v_ex_pos. cbn [magnitude haser_two_species self_v]. lra.
  - discriminate.
  - km.
  - km.
  - km.
Defined.

Lemma total_number_degrades_without_scipy_witness :
  total_number false zero_iti0k0 zero_k1 zero_quad reporting_dblquad
               small_angle flat_response haser_parent_only
               (Aper (RectangularAperture 1 2 u_km)) None
  = ([cannot_integrate], Ok PNone).
Proof.
  apply (total_number_degrades_without_scipy zero_iti0k0 zero_k1 zero_quad
           reporting_dblquad small_angle flat_response haser_parent_only
           (RectangularAperture 1 2 u_km) (RectangularAperture 1 2 u_km)
           None).
  - left. exists 1, 2, u_km. reflexivity.
  - reflexivity.
Defined.

Lemma integration_independent_of_unit_witness :
  let integrate :=
    _integrate_column_density true zero_quad reporting_dblquad flat_response
      (column_density true zero_iti0k0 small_angle haser_parent_only) in
  integrate (CircularAperture (mkQ 1000 u_m))
    = integrate (CircularAperture (mkQ 1 u_km)) /\
  integrate (AnnularAperture 1000 2000 u_m)
    = integrate (AnnularAperture 1 2 u_km) /\
  integrate (RectangularAperture 1000 2000 u_m)
    = integrate (RectangularAperture 1 2 u_km).
Proof.
  apply (integration_independent_of_unit zero_quad reporting_dblquad
           flat_response true
           (column_density true zero_iti0k0 small_angle haser_parent_only)
           1000 2000 1 2 u_m u_km).
  - reflexivity.
  - reflexivity.
  - simpl. lra.
  - simpl. lra.
Defined.

Lemma integration_needs_lengths_witness :
  let integrate :=
    _integrate_column_density true zero_quad reporting_dblquad flat_response
      (column_density true zero_iti0k0 small_angle haser_parent_only) in
  integrate (CircularAperture (mkQ 1 u_rad)) = raise UnitConversionError /\
  integrate (AnnularAperture 1 2 u_rad) = raise UnitConversionError /\
  integrate (RectangularAperture 1 2 u_rad) = raise UnitConversionError.
Proof.
  apply (integration_needs_lengths zero_quad reporting_dblquad
           flat_response
           (column_density true zero_iti0k0 small_angle haser_parent_only)
           1 2 u_rad).
  discriminate.
Defined.

Lemma rectangle_sides_exchange_witness :
  let cd := column_density true zero_iti0k0 small_angle haser_parent_only in
  let integrate :=
    _integrate_column_density true zero_quad reporting_dblquad flat_response
                              cd in
  let a_km := 1 * 1000 / 1000 in
  let b_km := 2 * 1000 / 1000 in
  let N1 := (atan (a_km / b_km) * (a_km / 2 / cos 0), 0) in
  let N2 := (atan (b_km / a_km) * (b_km / 2 / cos 0), 0) in
  integrate (RectangularAperture 1 2 u_km)
    = ret (PFloat (4 * (fst N1 + fst N2))) /\
  integrate (RectangularAperture 2 1 u_km)
    = ret (PFloat (4 * (fst N1 + fst N2))).
Proof.
  apply (rectangle_sides_exchange zero_quad reporting_dblquad flat_response
           (column_density true zero_iti0k0 small_angle haser_parent_only)
           1 2 u_km); reflexivity.
Defined.

Lemma annuli_add_up_witness :
  let total_number :=
    total_number true zero_iti0k0 zero_k1 zero_quad reporting_dblquad
                 small_angle flat_response haser_two_species in
  exists Nab Nbc Nac Naa,
    total_number (Aper (AnnularAperture 1 2 u_km)) None
      = ret (PQuantity Nab) /\
    total_number (Aper (AnnularAperture 2 3 u_km)) None
      = ret (PQuantity Nbc) /\
    total_number (Aper (AnnularAperture 1 3 u_km)) None
      = ret (PQuantity Nac) /\
    total_number (Aper (AnnularAperture 1 1 u_km)) None
      = ret (PQuantity Naa) /\
    si Nab + si Nbc = si Nac /\ si Naa = 0.
Proof.
  apply (annuli_add_up zero_iti0k0 zero_k1 zero_quad reporting_dblquad
           small_angle flat_response haser_two_species 1 2 3 u_km None).
  - exact haser_two_species_constructed.
  - reflexivity.
  - lra.
  - lra.
  - lra.
  - pose proof v_ex_pos. cbn [magnitude haser_two_species self_v]. lra.
  - km.
  - right. split; km.
Defined.

Lemma lengthscale_has_timescale_witness :
  exists tau bibcode,
    [("activity.gas.photo_lengthscale", "1993Icar..105..235C")]%string
    = [("activity.gas.photo_lengthscale", bibcode)]%string /\
    Photo.photo_timescale (Some "oh"%string) (Some "cs93"%string)
    = ([("activity.gas.photo_timescale", bibcode)]%string,
       inr (Photo.Timescale (Photo.Scalar tau))) /\
    dim (unit tau) = dim_time /\ 0 < si tau.
Proof.
  apply (PhotoFacts.lengthscale_has_timescale "oh" (Some "cs93"%string)
           [("activity.gas.photo_lengthscale", "1993Icar..105..235C")]%string
           (mkQ 160000 u_km)).
  reflexivity.
Defined.

Lemma photo_lengthscale_fits_Haser_witness :
  let gamma := mkQ 24000 u_km in
  let Q := PQuantity Q_ex in
  let v := PQuantity v_ex in
  let other := PQuantity daughter_ex in
  dim (unit gamma) = dim_length /\ 0 < si gamma /\
  Haser_init Q v (PQuantity gamma) PNone
    = ret (mkHaser Q v (PQuantity gamma) PNone) /\
  Haser_init Q v (PQuantity gamma) other
    = ret (mkHaser Q v (PQuantity gamma) other) /\
  Haser_init Q v other (PQuantity gamma)
    = ret (mkHaser Q v other (PQuantity gamma)).
Proof.
  apply (photo_lengthscale_fits_Haser "h2o" None
           [("activity.gas.photo_lengthscale", "1993Icar..105..235C")]%string
           (mkQ 24000 u_km) (PQuantity Q_ex) (PQuantity v_ex)
           (PQuantity daughter_ex)); reflexivity.
Defined.
